(** * Trading strategies: the martingale engine and the wave-divergence signal

    A shallow embedding of [Martingel.py] (class [MartingaleStrategy]) and of
    [SBX_strategy.py] (class [ChanAndSmaCombinedStrategy]), with the
    properties of the specification stated over it, and of the data
    preparation that feeds them: the minute candles of [data_clean.py] and
    the rolling window of [getdata.py].

    Numbers.  The program computes with Python floats.  Finite values are
    modelled by exact rationals ([Q]), so rounding and overflow are left
    out; the special values a float column can hold (NaN of a rolling
    warm-up or of an empty resample bucket, the infinities of a numpy
    division by zero) are kept in [pyfloat].  A scalar Python division by
    zero raises [ZeroDivisionError], as [float.__truediv__] does.

    Frames.  A data frame is the list of its rows under the default
    [RangeIndex] (label = position); a column written by label is a list
    updated in place. *)

From Stdlib Require Import QArith Qminmax Qabs Lqa ZArith Lia Bool.
From stdpp Require Import base list sorting.

Local Open Scope Q_scope.

(** ** Python values shared by both strategies *)

(** The exceptions of the program.  The last two are the error names of the
    specification; no function of the source raises them. *)
Inductive exn :=
  | NameError
  | IndexError
  | ZeroDivisionError
  | ValueError
  | InsufficientDataError
  | InvalidLayerConfigError.

Inductive result (A : Type) :=
  | Ok (a : A)
  | Raise (e : exn).
Arguments Ok {A} a.
Arguments Raise {A} e.

Definition result_bind {A B} (r : result A) (k : A -> result B) : result B :=
  match r with
  | Ok a => k a
  | Raise e => Raise e
  end.

(** A float: finite, or one of the IEEE special values. *)
Inductive pyfloat :=
  | Fin (q : Q)
  | PInf
  | NInf
  | NaN.

Definition Qltb (a b : Q) : bool := negb (Qle_bool b a).

Definition fneg (a : pyfloat) : pyfloat :=
  match a with
  | Fin q => Fin (- q)
  | PInf => NInf
  | NInf => PInf
  | NaN => NaN
  end.

Definition fadd (a b : pyfloat) : pyfloat :=
  match a, b with
  | Fin p, Fin q => Fin (p + q)
  | NaN, _ | _, NaN => NaN
  | PInf, NInf | NInf, PInf => NaN
  | PInf, _ | _, PInf => PInf
  | NInf, _ | _, NInf => NInf
  end.

Definition fsub (a b : pyfloat) : pyfloat := fadd a (fneg b).

(** Sign of a finite factor applied to an infinity; zero times infinity is NaN. *)
Definition finf_scale (q : Q) (inf : pyfloat) : pyfloat :=
  if Qltb 0 q then inf else if Qltb q 0 then fneg inf else NaN.

Definition fmul (a b : pyfloat) : pyfloat :=
  match a, b with
  | Fin p, Fin q => Fin (p * q)
  | NaN, _ | _, NaN => NaN
  | Fin p, inf => finf_scale p inf
  | inf, Fin q => finf_scale q inf
  | PInf, PInf | NInf, NInf => PInf
  | PInf, NInf | NInf, PInf => NInf
  end.

(** [a < b]; every comparison with NaN is false. *)
Definition flt (a b : pyfloat) : bool :=
  match a, b with
  | Fin p, Fin q => Qltb p q
  | NaN, _ | _, NaN => false
  | _, NInf | PInf, _ => false
  | NInf, _ | _, PInf => true
  end.

Definition fle (a b : pyfloat) : bool :=
  match a, b with
  | Fin p, Fin q => Qle_bool p q
  | NaN, _ | _, NaN => false
  | NInf, _ | _, PInf => true
  | _, NInf | PInf, _ => false
  end.

Definition fgt (a b : pyfloat) : bool := flt b a.
Definition fge (a b : pyfloat) : bool := fle b a.

(** Python's builtin [min(a, b)]: the first argument unless the second is
    strictly smaller. *)
Definition pymin (a b : pyfloat) : pyfloat := if flt b a then b else a.

(** Python's builtin [max] over an iterable: the first item, replaced by each
    later item that is strictly greater; [ValueError] on an empty iterable. *)
Definition pymax_step (cur item : pyfloat) : pyfloat :=
  if fgt item cur then item else cur.

Definition pymax (l : list pyfloat) : result pyfloat :=
  match l with
  | [] => Raise ValueError
  | a :: l' => Ok (fold_left pymax_step l' a)
  end.

(** Scalar division of Python numbers. *)
Definition pydiv (a b : Q) : result Q :=
  if Qeq_bool b 0 then Raise ZeroDivisionError else Ok (a / b).

(** Elementwise numpy division of two finite values: no exception. *)
Definition npdiv (a b : Q) : pyfloat :=
  if Qeq_bool b 0 then
    (if Qltb 0 a then PInf else if Qltb a 0 then NInf else NaN)
  else Fin (a / b).

(** [l[i]] on a Python list, for an index that is not negative. *)
Definition list_get {A} (l : list A) (i : nat) : result A :=
  match l !! i with
  | Some a => Ok a
  | None => Raise IndexError
  end.

(** [series.iloc[-k]] for [k >= 1]. *)
Definition iloc_neg {A} (l : list A) (k : nat) : result A :=
  if (k <=? length l)%nat then list_get l (length l - k) else Raise IndexError.

(** [series.iloc[lo:hi]] for bounds that are not negative. *)
Definition iloc_slice {A} (l : list A) (lo hi : nat) : list A :=
  take (hi - lo) (drop lo l).

(** [series.shift(1)]: the first row becomes missing. *)
Definition shift1 {A} (l : list A) : list (option A) :=
  match l with
  | [] => []
  | _ => None :: (Some <$> removelast l)
  end.

(** ** [Martingel.py]: the martingale position engine *)

Module Martingale.

(** A row of [self.df].  [MA13] and [MA120] are trailing means and hold NaN
    during their warm-up; the price columns are finite. *)
Record Bar := mkBar {
  timestamp : Z;          (* minutes since the epoch *)
  high : Q;
  low : Q;
  close : Q;
  MA13 : pyfloat;
  MA120 : pyfloat
}.

(** [self.direction]: ['long'], ['short'] or [None]. *)
Inductive side := Long | Short.

(** What the engine prints, one constructor per [print] of the source. *)
Inductive line :=
  | AddLine (layer : nat) (price avg total : Q)      (* 【加仓】 *)
  | OpenLine (d : option side) (price : Q)           (* 【开单】 *)
  | TakeProfitLine (price : Q) (layer : nat)         (* 【止盈】 *)
  | LiquidationLine (price : Q).                     (* 【爆仓】 *)

(** The instance: its attributes, the two signal columns it writes into
    [self.df], and the lines printed so far (latest first). *)
Record strategy := mkStrategy {
  df : list Bar;
  open_signal : list Z;
  close_signal : list Z;
  leverage_list : list Q;
  position_list : list Q;
  position : Q;
  entry_price : Q;
  total_loss : Q;
  total_profit : Q;
  current_layer : nat;
  direction : option side;
  x : pyfloat;
  y : pyfloat;
  stdout : list line
}.

(** *** Volatility snapshots *)

(** [resample(rule, on='timestamp')]: one row per bucket of [w] minutes from
    the bucket of the earliest row to the bucket of the latest one, empty
    buckets included. *)
Definition bucket_of (w : Z) (b : Bar) : Z := (timestamp b / w)%Z.

Definition bucket_rows (w k : Z) (rows : list Bar) : list Bar :=
  filter (fun b => bucket_of w b = k) rows.

Definition Zlist_min (k : Z) (l : list Z) : Z := fold_right Z.min k l.
Definition Zlist_max (k : Z) (l : list Z) : Z := fold_right Z.max k l.

Definition bucket_ids (w : Z) (rows : list Bar) : list Z :=
  match rows with
  | [] => []
  | b :: rest =>
      let first := Zlist_min (bucket_of w b) (bucket_of w <$> rest) in
      let last := Zlist_max (bucket_of w b) (bucket_of w <$> rest) in
      seqZ first (last - first + 1)
  end.

(** [.agg({'high': 'max', 'low': 'min'})] of one bucket; NaN for both when
    the bucket has no row. *)
Definition Qlist_max (l : list Q) : option Q :=
  match l with
  | [] => None
  | a :: l' => Some (fold_left Qmax l' a)
  end.

Definition Qlist_min (l : list Q) : option Q :=
  match l with
  | [] => None
  | a :: l' => Some (fold_left Qmin l' a)
  end.

Definition agg_bucket (rows : list Bar) : option (Q * Q) :=
  match Qlist_max (high <$> rows), Qlist_min (low <$> rows) with
  | Some h, Some l => Some (h, l)
  | _, _ => None
  end.

Definition resample (w : Z) (rows : list Bar) : list (option (Q * Q)) :=
  (fun k => agg_bucket (bucket_rows w k rows)) <$> bucket_ids w rows.

(** [(resampled['high'] - resampled['low']) / resampled['low']], per row. *)
Definition range_ratio (r : option (Q * Q)) : pyfloat :=
  match r with
  | Some (h, l) => npdiv (h - l) l
  | None => NaN
  end.

(** [self.df[-24*60:]] *)
Definition last_24h (rows : list Bar) : list Bar :=
  drop (length rows - 24 * 60) rows.

Definition calculate_volatility (w : Z) (rows : list Bar) : result pyfloat :=
  pymax (range_ratio <$> resample w (last_24h rows)).

Definition calculate_4h_volatility (rows : list Bar) : result pyfloat :=
  calculate_volatility 240 rows.

Definition calculate_1h_volatility (rows : list Bar) : result pyfloat :=
  calculate_volatility 60 rows.

(** [__init__] *)
Definition init (frame : list Bar) (leverage positions : list Q)
  : result strategy :=
  result_bind (calculate_4h_volatility frame) (fun vx =>
  result_bind (calculate_1h_volatility frame) (fun vy =>
  Ok {| df := frame;
        open_signal := replicate (length frame) 0%Z;
        close_signal := replicate (length frame) 0%Z;
        leverage_list := leverage;
        position_list := positions;
        position := 0;
        entry_price := 0;
        total_loss := 0;
        total_profit := 0;
        current_layer := 0;
        direction := None;
        x := vx;
        y := vy;
        stdout := [] |})).

(** *** The state and exception monad of the methods

    A method reads and writes [self] and may raise; what it wrote before
    raising stays written. *)
Definition M (A : Type) : Type := strategy -> result A * strategy.

Definition ret {A} (a : A) : M A := fun s => (Ok a, s).

Definition bind {A B} (m : M A) (k : A -> M B) : M B :=
  fun s =>
    match m s with
    | (Ok a, s') => k a s'
    | (Raise e, s') => (Raise e, s')
    end.

Definition get : M strategy := fun s => (Ok s, s).
Definition put (s : strategy) : M unit := fun _ => (Ok tt, s).
Definition lift {A} (r : result A) : M A := fun s => (r, s).

Notation "v <- m ;; k" := (bind m (fun v => k))
  (at level 100, m at next level, right associativity).
Notation "m ;;; k" := (bind m (fun _ => k))
  (at level 100, right associativity).

(** Assignments to single attributes. *)
Definition set_entry_price (v : Q) : M unit := fun s =>
  (Ok tt, mkStrategy (df s) (open_signal s) (close_signal s) (leverage_list s)
     (position_list s) (position s) v (total_loss s) (total_profit s)
     (current_layer s) (direction s) (x s) (y s) (stdout s)).

Definition set_position (v : Q) : M unit := fun s =>
  (Ok tt, mkStrategy (df s) (open_signal s) (close_signal s) (leverage_list s)
     (position_list s) v (entry_price s) (total_loss s) (total_profit s)
     (current_layer s) (direction s) (x s) (y s) (stdout s)).

Definition set_total_profit (v : Q) : M unit := fun s =>
  (Ok tt, mkStrategy (df s) (open_signal s) (close_signal s) (leverage_list s)
     (position_list s) (position s) (entry_price s) (total_loss s) v
     (current_layer s) (direction s) (x s) (y s) (stdout s)).

Definition set_current_layer (v : nat) : M unit := fun s =>
  (Ok tt, mkStrategy (df s) (open_signal s) (close_signal s) (leverage_list s)
     (position_list s) (position s) (entry_price s) (total_loss s)
     (total_profit s) v (direction s) (x s) (y s) (stdout s)).

(** [self.df.loc[index, 'open_signal'] = v], for a label [index] of the
    frame: [run] passes the labels [iterrows] yields.  (For a label outside
    the frame pandas would add a row; the list is left as it is there, and
    no property below relies on that case.) *)
Definition set_open_signal (index : nat) (v : Z) : M unit := fun s =>
  (Ok tt, mkStrategy (df s) (<[index := v]> (open_signal s)) (close_signal s)
     (leverage_list s) (position_list s) (position s) (entry_price s)
     (total_loss s) (total_profit s) (current_layer s) (direction s)
     (x s) (y s) (stdout s)).

(** [self.df.loc[index, 'close_signal'] = v], for a label [index] of the
    frame, as above. *)
Definition set_close_signal (index : nat) (v : Z) : M unit := fun s =>
  (Ok tt, mkStrategy (df s) (open_signal s) (<[index := v]> (close_signal s))
     (leverage_list s) (position_list s) (position s) (entry_price s)
     (total_loss s) (total_profit s) (current_layer s) (direction s)
     (x s) (y s) (stdout s)).

Definition print (l : line) : M unit := fun s =>
  (Ok tt, mkStrategy (df s) (open_signal s) (close_signal s) (leverage_list s)
     (position_list s) (position s) (entry_price s) (total_loss s)
     (total_profit s) (current_layer s) (direction s) (x s) (y s)
     (l :: stdout s)).

(** [a and b] on method calls: [b] is evaluated only when [a] is true. *)
Definition pyand (a b : M bool) : M bool :=
  va <- a ;; if va then b else ret false.

(** *** The methods *)

(** [check_entry_condition].  The [return False] of line 35 stands at the
    level of the function body: the statements after it (the second
    volatility test and the comparison of [MA13] with [MA120] that sets
    [self.direction]) are never executed.  The statement guarded by the
    first test reads a name [i] that is bound neither in the method nor in
    the module, so evaluating it raises [NameError]. *)
Definition check_entry_condition (row : Bar) : M bool :=
  s <- get ;;
  if fle (x s) (Fin (1 # 100)) then lift (Raise NameError) else ret false.

Definition calculate_stop_loss (layer : nat) : M pyfloat :=
  s <- get ;;
  let volatility_factor := pymin (fmul (Fin (1 # 2)) (x s)) (y s) in
  lev <- lift (list_get (leverage_list s) layer) ;;
  ret (fmul volatility_factor (Fin lev)).

Definition calculate_take_profit (layer : nat) : M pyfloat :=
  s <- get ;;
  if (layer =? 0)%nat then
    lev <- lift (list_get (leverage_list s) layer) ;;
    ret (Fin (lev * (1 # 100)))
  else
    let volatility_factor := pymin (fmul (Fin (1 # 2)) (x s)) (y s) in
    lev <- lift (list_get (leverage_list s) layer) ;;
    ret (fmul volatility_factor (Fin lev)).

Definition signal_of (d : option side) : Z :=
  match d with
  | Some Long => 1
  | _ => -1
  end.

Definition add_position (price : Q) (layer index : nat) : M unit :=
  s <- get ;;
  new_position <- lift (list_get (position_list s) layer) ;;
  avg <- lift (pydiv (entry_price s * position s + price * new_position)
                     (position s + new_position)) ;;
  set_entry_price avg ;;;
  set_position (position s + new_position) ;;;
  set_current_layer layer ;;;
  set_open_signal index (signal_of (direction s)) ;;;
  print (AddLine (layer + 1) price avg (position s + new_position)).

Definition check_slope_reversal (ma13_series : list pyfloat) : result bool :=
  if (length ma13_series <? 6)%nat then Ok false
  else
    result_bind (iloc_neg ma13_series 1) (fun m1 =>
    result_bind (iloc_neg ma13_series 6) (fun m6 =>
    result_bind (iloc_neg ma13_series 2) (fun m2 =>
    result_bind (iloc_neg ma13_series 7) (fun m7 =>
    Ok (flt (fmul (fsub m1 m6) (fsub m2 m7)) (Fin 0)))))).

Definition is_long (d : option side) : bool :=
  match d with
  | Some Long => true
  | _ => false
  end.

Definition check_take_profit (price : Q) : M bool :=
  s <- get ;;
  profit <- lift (if is_long (direction s)
                  then pydiv (price - entry_price s) (entry_price s)
                  else pydiv (entry_price s - price) (entry_price s)) ;;
  target_profit <- calculate_take_profit (current_layer s) ;;
  ret (fge (Fin profit) target_profit).

Definition check_stop_loss (price : Q) : M bool :=
  s <- get ;;
  loss <- lift (if is_long (direction s)
                then pydiv (entry_price s - price) (entry_price s)
                else pydiv (price - entry_price s) (entry_price s)) ;;
  target_loss <- calculate_stop_loss (current_layer s) ;;
  ret (fge (Fin loss) target_loss || Qle_bool (1 # 2) (total_loss s)).

(** How one pass of the loop body ends: it falls through or [continue]s to
    the next row, or it [break]s out of the loop. *)
Inductive flow := Next | Break.

(** The body of the [for] loop of [run], after [price] and [recent_ma13]
    have been read. *)
Definition process_bar (i : nat) (row : Bar) (recent_ma13 : list pyfloat)
  : M flow :=
  let price := close row in
  s <- get ;;
  if Qeq_bool (position s) 0 then
    enter <- check_entry_condition row ;;
    if enter then
      add_position price 0 i ;;;
      s1 <- get ;;
      print (OpenLine (direction s1) price) ;;;
      ret Next
    else ret Next
  else
    take <- pyand (check_take_profit price)
                  (lift (check_slope_reversal recent_ma13)) ;;
    if take then
      s1 <- get ;;
      print (TakeProfitLine price (current_layer s1 + 1)) ;;;
      set_close_signal i 1 ;;;
      set_total_profit (total_profit s1 + (price - entry_price s1)) ;;;
      set_position 0 ;;;
      set_current_layer 0 ;;;
      ret Next
    else
      stop <- pyand (check_stop_loss price)
                    (lift (check_slope_reversal recent_ma13)) ;;
      if stop then
        s1 <- get ;;
        if (Z.of_nat (current_layer s1)
              <? Z.of_nat (length (leverage_list s1)) - 1)%Z then
          add_position price (current_layer s1 + 1) i ;;;
          ret Next
        else
          print (LiquidationLine price) ;;;
          set_close_signal i 1 ;;;
          set_position 0 ;;;
          set_current_layer 0 ;;;
          ret Break
      else ret Next.

(** The [for] loop over the rows with their labels.  [recent_of i s] is the
    series bound to [recent_ma13] at row [i]. *)
Fixpoint run_rows (recent_of : nat -> strategy -> list pyfloat)
    (rows : list (nat * Bar)) : M unit :=
  match rows with
  | [] => ret tt
  | (i, row) :: rest =>
      s <- get ;;
      fl <- process_bar i row (recent_of i s) ;;
      match fl with
      | Break => ret tt
      | Next => run_rows recent_of rest
      end
  end.

(** [self.df['MA13'].iloc[max(0, i-5):i+1]] *)
Definition recent_ma13 (i : nat) (s : strategy) : list pyfloat :=
  iloc_slice (MA13 <$> df s) (Nat.max 0 (i - 5)) (i + 1).

(** [self.df.iterrows()] *)
Definition iterrows (frame : list Bar) : list (nat * Bar) :=
  zip (seq 0 (length frame)) frame.

Definition run : M unit :=
  s <- get ;;
  run_rows recent_ma13 (iterrows (df s)).

End Martingale.

(** ** [SBX_strategy.py]: moving-average cross with the wave-divergence exit *)

Module SBX.

(** The columns of this frame hold finite numbers or NaN ([None]): no
    division by zero occurs, so no infinity arises. *)
Definition gt_nan (a b : option Q) : bool :=
  match a, b with
  | Some p, Some q => Qltb q p
  | _, _ => false
  end.

Definition le_nan (a b : option Q) : bool :=
  match a, b with
  | Some p, Some q => Qle_bool p q
  | _, _ => false
  end.

Definition lt_nan (a b : option Q) : bool := gt_nan b a.

Definition sub_nan (a b : option Q) : option Q :=
  match a, b with
  | Some p, Some q => Some (p - q)
  | _, _ => None
  end.

Definition Qsum (l : list Q) : Q := fold_right Qplus 0 l.

(** [close.rolling(w).mean()]: the mean of the [w] values ending at the row,
    NaN while fewer than [w] values are there. *)
Definition rolling_mean (w : nat) (xs : list Q) : list (option Q) :=
  (fun t =>
     if (w =? 0)%nat || (t + 1 <? w)%nat then None
     else Some (Qsum (iloc_slice xs (t + 1 - w) (t + 1))
                / inject_Z (Z.of_nat w)))
    <$> seq 0 (length xs).

(** [(flags).cumsum()] *)
Fixpoint cumsum_from (acc : nat) (flags : list bool) : list nat :=
  match flags with
  | [] => []
  | f :: rest =>
      let acc' := if f then S acc else acc in
      acc' :: cumsum_from acc' rest
  end.

Definition cumsum (flags : list bool) : list nat := cumsum_from 0 flags.

(** The rows of one group of [df.groupby("wave_id")["diff_5_10"]]. *)
Definition group (g : nat) (ids : list nat) (vals : list (option Q))
  : list (option Q) :=
  snd <$> filter (fun p => fst p = g) (zip ids vals).

(** [x.sum()]: NaN entries are skipped. *)
Definition sum_skipna (l : list (option Q)) : Q := Qsum (omap id l).

(** [lambda x: x.sum() / max(len(x), 1)] *)
Definition strength (grp : list (option Q)) : Q :=
  sum_skipna grp / inject_Z (Z.of_nat (Nat.max (length grp) 1)).

Record frame := mkFrame {
  short_ma : list (option Q);
  medium_ma : list (option Q);
  long_ma : list (option Q);
  diff_5_10 : list (option Q);
  diff_sign : list Z;
  sign_change : list (option Z);
  wave_id : list nat;
  wave_strength : list Q;
  prev_wave_strength : list (option Q);
  signal : list Z
}.

(** Step 2 of [generate_signals]: the column starts at 0, is set to 1 where
    the short mean is above the long one and to 0 where it is not above. *)
Definition cross_signal (short long : list (option Q)) : list Z :=
  zip_with (fun a b =>
              let s1 := if gt_nan a b then 1%Z else 0%Z in
              if le_nan a b then 0%Z else s1)
           short long.

Definition sign_of (d : option Q) : Z := if gt_nan d (Some 0) then 1%Z else (-1)%Z.

Definition flag_of (c : option Z) : bool :=
  match c with
  | Some v => (v <? 0)%Z
  | None => false
  end.

(** Step 4: the rows where the long signal is withdrawn. *)
Definition condition_weaker (sig sgn : Z) (ws : Q) (prev : option Q) : bool :=
  (sig =? 1)%Z && (sgn =? 1)%Z && lt_nan (Some ws) prev.

Definition generate_signals (short_window medium_window long_window : nat)
    (closes : list Q) : frame :=
  let short := rolling_mean short_window closes in
  let medium := rolling_mean medium_window closes in
  let long := rolling_mean long_window closes in
  let sig := cross_signal short long in
  let diff := zip_with sub_nan short medium in
  let sgn := sign_of <$> diff in
  let change := zip_with (fun a b => Z.mul a <$> b) sgn (shift1 sgn) in
  let ids := cumsum (flag_of <$> change) in
  (* groupby + apply, merged back on wave_id *)
  let ws := (fun g => strength (group g ids diff)) <$> ids in
  let prev := shift1 ws in
  let weaker :=
    zip_with (fun p q => condition_weaker p.1.1 p.1.2 p.2 q)
             (zip (zip sig sgn) ws) prev in
  {| short_ma := short;
     medium_ma := medium;
     long_ma := long;
     diff_5_10 := diff;
     diff_sign := sgn;
     sign_change := change;
     wave_id := ids;
     wave_strength := ws;
     prev_wave_strength := prev;
     signal := zip_with (fun v (c : bool) => if c then 0%Z else v) sig weaker |}.

End SBX.

(** ** The words of the specification, and concrete data *)

Import Martingale.

(** The entry rule as the specification words it (4.3, transition 1): the
    volatility gate [x > 1%] and the direction of the MA cross. *)
Definition entry_rule_spec (vx : pyfloat) (row : Bar) : option side :=
  if fgt vx (Fin (1 # 100)) then
    if fgt (MA13 row) (MA120 row) then Some Long
    else if flt (MA13 row) (MA120 row) then Some Short
    else None
  else None.

(** The state after a forced liquidation at row [i]. *)
Definition liquidated (i : nat) (price : Q) (s : strategy) : strategy :=
  {| df := df s;
     open_signal := open_signal s;
     close_signal := <[i := 1%Z]> (close_signal s);
     leverage_list := leverage_list s;
     position_list := position_list s;
     position := 0;
     entry_price := entry_price s;
     total_loss := total_loss s;
     total_profit := total_profit s;
     current_layer := 0;
     direction := direction s;
     x := x s;
     y := y s;
     stdout := LiquidationLine price :: stdout s |}.

(** The state after a take-profit close at row [i]. *)
Definition profit_taken (i : nat) (price : Q) (s : strategy) : strategy :=
  {| df := df s;
     open_signal := open_signal s;
     close_signal := <[i := 1%Z]> (close_signal s);
     leverage_list := leverage_list s;
     position_list := position_list s;
     position := 0;
     entry_price := entry_price s;
     total_loss := total_loss s;
     total_profit := total_profit s + (price - entry_price s);
     current_layer := 0;
     direction := direction s;
     x := x s;
     y := y s;
     stdout := TakeProfitLine price (current_layer s + 1) :: stdout s |}.

(** The state after [add_position price layer index] has added the size [a]. *)
Definition added (price a : Q) (layer index : nat) (s : strategy) : strategy :=
  let avg := (entry_price s * position s + price * a) / (position s + a) in
  {| df := df s;
     open_signal := <[index := signal_of (direction s)]> (open_signal s);
     close_signal := close_signal s;
     leverage_list := leverage_list s;
     position_list := position_list s;
     position := position s + a;
     entry_price := avg;
     total_loss := total_loss s;
     total_profit := total_profit s;
     current_layer := layer;
     direction := direction s;
     x := x s;
     y := y s;
     stdout := AddLine (layer + 1) price avg (position s + a) :: stdout s |}.

(** The guards of the two closing branches of [process_bar]. *)
Definition take_profit_guard (row : Bar) (recent : list pyfloat)
    (s : strategy) : Prop :=
  Qeq_bool (position s) 0 = false /\
  (pyand (check_take_profit (close row))
         (lift (check_slope_reversal recent)) s).1 = Ok true.

Definition liquidation_guard (row : Bar) (recent : list pyfloat)
    (s : strategy) : Prop :=
  Qeq_bool (position s) 0 = false /\
  (pyand (check_take_profit (close row))
         (lift (check_slope_reversal recent)) s).1 = Ok false /\
  (pyand (check_stop_loss (close row))
         (lift (check_slope_reversal recent)) s).1 = Ok true /\
  (Z.of_nat (current_layer s)
     <? Z.of_nat (length (leverage_list s)) - 1)%Z = false.

(** Successive adds at the layers [layer], [layer + 1], ... at the given
    prices, as [run] performs them between two flat states. *)
Fixpoint add_layers (prices : list Q) (layer index : nat) : M unit :=
  match prices with
  | [] => ret tt
  | p :: rest => add_position p layer index ;;; add_layers rest (S layer) index
  end.

(** The position-weighted average of (price, size) pairs. *)
Definition weighted_sum (l : list (Q * Q)) : Q :=
  fold_right (fun pa acc => pa.1 * pa.2 + acc) 0 l.

Definition size_sum (l : list (Q * Q)) : Q :=
  fold_right (fun pa acc => pa.2 + acc) 0 l.

Definition weighted_average (l : list (Q * Q)) : Q :=
  weighted_sum l / size_sum l.

(** A frame of one bar with [x = y = 2%] and [MA13 > MA120]. *)
Definition one_bar : Bar :=
  {| timestamp := 0; high := 102; low := 100; close := 100;
     MA13 := Fin 101; MA120 := Fin 100 |}.

(** Seven fast-MA values whose five-bar slope changes sign at the last
    bar, and the last six of them. *)
Definition reversal7 : list pyfloat :=
  [Fin 5; Fin 1; Fin 3; Fin 4; Fin 5; Fin 4; Fin 7].

Definition window6 : list pyfloat :=
  [Fin 1; Fin 3; Fin 4; Fin 5; Fin 4; Fin 7].

(** A state with a position open at layer 0 of two layers. *)
Definition open_state (d : side) (loss : Q) : strategy :=
  {| df := [];
     open_signal := replicate 8 0%Z;
     close_signal := replicate 8 0%Z;
     leverage_list := [1; 2];
     position_list := [1; 1];
     position := 1;
     entry_price := 100;
     total_loss := loss;
     total_profit := 0;
     current_layer := 0;
     direction := Some d;
     x := Fin (1 # 50);
     y := Fin (1 # 100);
     stdout := [] |}.

Definition bar_at (price : Q) : Bar :=
  {| timestamp := 0; high := price; low := price; close := price;
     MA13 := NaN; MA120 := NaN |}.

(** A flat engine, as [__init__] leaves it, over a given layer schedule. *)
Definition flat_state (leverage positions : list Q) : strategy :=
  {| df := [];
     open_signal := replicate 8 0%Z;
     close_signal := replicate 8 0%Z;
     leverage_list := leverage;
     position_list := positions;
     position := 0;
     entry_price := 0;
     total_loss := 0;
     total_profit := 0;
     current_layer := 0;
     direction := None;
     x := Fin (1 # 50);
     y := Fin (1 # 100);
     stdout := [] |}.

(** Two bars sixteen hours apart: the 4h buckets between them have no row. *)
Definition gap_frame : list Bar :=
  [ {| timestamp := 0; high := 101; low := 100; close := 100;
       MA13 := NaN; MA120 := NaN |};
    {| timestamp := 1000; high := 110; low := 100; close := 105;
       MA13 := NaN; MA120 := NaN |} ].

Import SBX.

(** The mean of a group in the two readings the words allow: pandas'
    [mean()], which leaves NaN entries out of both the sum and the count,
    and the plain mean, which is NaN as soon as one entry is. *)
Definition mean_skipna (grp : list (option Q)) : option Q :=
  match omap id grp with
  | [] => None
  | vs => Some (Qsum vs / inject_Z (Z.of_nat (length vs)))
  end.

Definition mean_nan (grp : list (option Q)) : option Q :=
  match grp with
  | [] => None
  | _ =>
      if forallb (fun d => match d with Some _ => true | None => false end) grp
      then Some (sum_skipna grp / inject_Z (Z.of_nat (length grp)))
      else None
  end.

(** The wave ids read off the signs directly: the id goes up by one at each
    row whose sign differs from the sign of the row before. *)
Fixpoint waves_from (acc : nat) (prev : Z) (sgn : list Z) : list nat :=
  match sgn with
  | [] => []
  | s :: rest =>
      let acc' := if (s * prev <? 0)%Z then S acc else acc in
      acc' :: waves_from acc' s rest
  end.

(** Steps 3.1 and 3.2 of [generate_signals] as a function of the column
    [diff_5_10]. *)
Definition wave_ids_of (diff : list (option Q)) : list nat :=
  let sgn := sign_of <$> diff in
  cumsum (flag_of <$> zip_with (fun a b => Z.mul a <$> b) sgn (shift1 sgn)).

(** Closing prices whose 1/2 means cross back and forth. *)
Definition zigzag : list Q := [1; 2; 3; 2; 1; 3; 5; 4].

(** The guard of the branch of [process_bar] that adds the next layer. *)
Definition add_guard (row : Bar) (recent : list pyfloat) (s : strategy) : Prop :=
  Qeq_bool (position s) 0 = false /\
  (pyand (check_take_profit (close row))
         (lift (check_slope_reversal recent)) s).1 = Ok false /\
  (pyand (check_stop_loss (close row))
         (lift (check_slope_reversal recent)) s).1 = Ok true /\
  (Z.of_nat (current_layer s)
     <? Z.of_nat (length (leverage_list s)) - 1)%Z = true.

(** The values the two signal columns are meant to hold. *)
Definition signals_wf (s : strategy) : Prop :=
  Forall (fun v => v = (-1)%Z \/ v = 0%Z \/ v = 1%Z) (open_signal s) /\
  Forall (fun v => v = 0%Z \/ v = 1%Z) (close_signal s).

(** A flat engine over a frame of one bar whose 4h snapshot is 0.5%. *)
Definition calm_state : strategy :=
  {| df := [one_bar];
     open_signal := [0%Z];
     close_signal := [0%Z];
     leverage_list := [1];
     position_list := [1];
     position := 0;
     entry_price := 0;
     total_loss := 0;
     total_profit := 0;
     current_layer := 0;
     direction := None;
     x := Fin (1 # 200);
     y := Fin (1 # 200);
     stdout := [] |}.

(** An engine that holds a position whose average entry price is 0. *)
Definition zero_entry_state : strategy :=
  {| df := [];
     open_signal := replicate 8 0%Z;
     close_signal := replicate 8 0%Z;
     leverage_list := [1; 2];
     position_list := [1; 1];
     position := 1;
     entry_price := 0;
     total_loss := 0;
     total_profit := 0;
     current_layer := 0;
     direction := Some Long;
     x := Fin (1 # 50);
     y := Fin (1 # 100);
     stdout := [] |}.

(** The slope-reversal confirmation as the specification words it (4.3):
    at bar [t], with at least 6 bars of fast-MA history before it, the
    product of [MA[t] - MA[t-5]] and [MA[t-1] - MA[t-6]] is negative. *)
Definition slope_reversal_spec (ma13 : list pyfloat) (t : nat) : bool :=
  (6 <=? t)%nat &&
  match ma13 !! t, ma13 !! (t - 5)%nat, ma13 !! (t - 1)%nat,
        ma13 !! (t - 6)%nat with
  | Some m0, Some m5, Some m1, Some m6 =>
      flt (fmul (fsub m0 m5) (fsub m1 m6)) (Fin 0)
  | _, _, _, _ => false
  end.

(** A one-minute bar around a closing price. *)
Definition minute_bar (t : Z) (c ma : Q) : Bar :=
  {| timestamp := t; high := c + 1; low := c - 1; close := c;
     MA13 := Fin ma; MA120 := NaN |}.

(** Seven one-minute bars whose fast MA reverses its five-bar slope at the
    last bar: six closes at 100, then a close at [c]. *)
Definition frame_closing_at (c : Q) : list Bar :=
  [minute_bar 0 100 5; minute_bar 1 100 1; minute_bar 2 100 3;
   minute_bar 3 100 4; minute_bar 4 100 5; minute_bar 5 100 4;
   minute_bar 6 c 7].





(** ** [data_clean.py]: minute candles from a table of trades *)

Module DataClean.

(** A row of the trades table: the columns [created_time] (milliseconds
    since the epoch), [price] and [size]. *)
Record trade := mkTrade {
  created_time : Z;
  price : Q;
  size : Q
}.

(** [_load_data]: the column [minute] is the time of the trade floored to
    the minute (here in minutes since the epoch). *)
Definition minute (t : trade) : Z := (created_time t / 60000)%Z.

(** A row of the frame that [get_kline_df] returns. *)
Record kline := mkKline {
  timestamp : Z;
  open : Q;
  high : Q;
  low : Q;
  close : Q;
  vol : Q
}.

(** The keys of [groupby("minute")]: the minutes that occur, each once, in
    increasing order. *)
Definition group_keys (minutes : list Z) : list Z :=
  match minutes with
  | [] => []
  | m :: rest =>
      let first := Zlist_min m rest in
      let last := Zlist_max m rest in
      filter (fun k => k ∈ minutes) (seqZ first (last - first + 1))
  end.

(** The rows of one group, in the order of the table. *)
Definition group_rows (k : Z) (trades : list trade) : list trade :=
  filter (fun t => minute t = k) trades.

(** [.agg(open first, high max, low min, close last, vol sum)] of a group. *)
Definition agg_group (k : Z) (rows : list trade) : option kline :=
  match rows with
  | [] => None
  | t :: rest =>
      Some {| timestamp := k;
              open := price t;
              high := fold_left Qmax (price <$> rest) (price t);
              low := fold_left Qmin (price <$> rest) (price t);
              close := List.last (price <$> rest) (price t);
              vol := Qsum (size <$> rows) |}
  end.

Definition get_kline_df (trades : list trade) : list kline :=
  omap (fun k => agg_group k (group_rows k trades))
       (group_keys (minute <$> trades)).

End DataClean.

(** Five trades over three minutes, out of order in time. *)
Definition sample_trades : list DataClean.trade :=
  [ DataClean.mkTrade 125000 101 2;
    DataClean.mkTrade 61000 100 1;
    DataClean.mkTrade 119000 103 1;
    DataClean.mkTrade 310000 99 4;
    DataClean.mkTrade 62000 98 3 ].

(** ** [getdata.py]: the rolling window of one-minute candles *)

Module GetData.

(** A row of [self.df]: the time of the candle and its numeric columns,
    which [pd.to_numeric(errors="coerce")] leaves NaN where the text was not
    a number. *)
Record candle := mkCandle {
  timestamp : Z;
  open : pyfloat;
  high : pyfloat;
  low : pyfloat;
  close : pyfloat;
  vol : pyfloat
}.

(** [drop_duplicates("timestamp")]: of the rows with one timestamp the
    first is kept. *)
Fixpoint drop_duplicates_from (seen : list Z) (rows : list candle)
  : list candle :=
  match rows with
  | [] => []
  | c :: rest =>
      if decide (timestamp c ∈ seen) then drop_duplicates_from seen rest
      else c :: drop_duplicates_from (timestamp c :: seen) rest
  end.

Definition drop_duplicates (rows : list candle) : list candle :=
  drop_duplicates_from [] rows.

(** [sort_values("timestamp")]: ascending by timestamp. *)
Definition ts_le (a b : candle) : Prop := (timestamp a <= timestamp b)%Z.

Definition ts_le_dec (a b : candle) : Decision (ts_le a b) :=
  Z_le_dec (timestamp a) (timestamp b).

Definition sort_values (rows : list candle) : list candle :=
  @merge_sort candle ts_le ts_le_dec rows.

(** The last two steps of [fetch_1m_data]: duplicates of a timestamp are
    dropped and the rows are sorted by timestamp. *)
Definition clean_frame (rows : list candle) : list candle :=
  sort_values (drop_duplicates rows).

(** What [fetch_latest_data] leaves in [self.df] once the latest candle has
    been received; [None] is the [self.df] of a fetcher that has no frame
    yet. *)
Definition fetch_latest_data (df : option (list candle)) (latest : candle)
  : list candle :=
  match df with
  | Some (c :: rest) =>
      let rows := c :: rest in
      if decide (timestamp (List.last rest c) = timestamp latest) then
        <[(length rows - 1)%nat := latest]> rows
      else
        let merged := sort_values (drop_duplicates (rows ++ [latest])) in
        if (1440 <? length merged)%nat
        then drop (length merged - 1440) merged
        else merged
  | _ => [latest]
  end.

End GetData.

Definition candle_at (t : Z) (p : Q) : GetData.candle :=
  GetData.mkCandle t (Fin p) (Fin p) (Fin p) (Fin p) (Fin 1).

(** A window of two candles one minute apart. *)
Definition two_candles : list GetData.candle :=
  [candle_at 0 100; candle_at 60000 101].

(** A method that only reads [self]. *)
Definition pure_m {A} (m : M A) : Prop := forall s, (m s).2 = s.

(** A field that a method leaves as it found it, whether it returns or raises. *)
Definition keeps {A B} (f : strategy -> B) (m : M A) : Prop :=
  forall s, f (m s).2 = f s.

(** Every size of the layer schedule is positive. *)
Definition sizes_positive (s : strategy) : Prop :=
  forall a, a ∈ position_list s -> 0 < a.

(** The two values of [diff_sign]. *)
Definition is_sign (s : Z) : Prop := s = 1%Z \/ s = (-1)%Z.

(** [s] after [n] changes of sign. *)
Definition flipn (n : nat) (s : Z) : Z := if Nat.even n then s else (- s)%Z.

(** ** Properties of the martingale engine *)

(** *** Methods that only read [self] *)

Lemma pure_ret {A} (a : A) : pure_m (ret a).
Proof. done. Qed.

Lemma pure_lift {A} (r : result A) : pure_m (lift r).
Proof. done. Qed.

Lemma pure_get : pure_m get.
Proof. done. Qed.

Lemma pure_bind {A B} (m : M A) (k : A -> M B) :
  pure_m m -> (forall a, pure_m (k a)) -> pure_m (bind m k).
Proof.
  intros Hm Hk s. unfold bind. specialize (Hm s).
  destruct (m s) as [[a|e] s']; simpl in *; subst; [apply Hk | done].
Qed.

Ltac pure_tac :=
  repeat first
    [ apply pure_ret | apply pure_lift | apply pure_get
    | apply pure_bind; [| intros ?]
    | match goal with |- pure_m (if ?b then _ else _) => destruct b end
    | match goal with |- pure_m (let _ := _ in _) => cbv zeta end ].

Lemma pure_check_entry_condition row : pure_m (check_entry_condition row).
Proof. unfold check_entry_condition. pure_tac. Qed.

Lemma pure_calculate_stop_loss l : pure_m (calculate_stop_loss l).
Proof. unfold calculate_stop_loss. pure_tac. Qed.

Lemma pure_calculate_take_profit l : pure_m (calculate_take_profit l).
Proof. unfold calculate_take_profit. pure_tac. Qed.

Lemma pure_check_take_profit p : pure_m (check_take_profit p).
Proof. unfold check_take_profit. pure_tac. Qed.

Lemma pure_check_stop_loss p : pure_m (check_stop_loss p).
Proof. unfold check_stop_loss. pure_tac. Qed.

Lemma pure_pyand a b : pure_m a -> pure_m b -> pure_m (pyand a b).
Proof. intros. unfold pyand. pure_tac; done. Qed.

Lemma pure_take_conj p recent :
  pure_m (pyand (check_take_profit p) (lift (check_slope_reversal recent))).
Proof. apply pure_pyand; [apply pure_check_take_profit | apply pure_lift]. Qed.

Lemma pure_stop_conj p recent :
  pure_m (pyand (check_stop_loss p) (lift (check_slope_reversal recent))).
Proof. apply pure_pyand; [apply pure_check_stop_loss | apply pure_lift]. Qed.

(** Splits a conjunction into its parts, leaving each equation to be
    computed rather than converted. *)
Ltac conj_split := repeat match goal with |- _ /\ _ => split end.

(** *** The entry from flat (C1) *)

Lemma check_entry_condition_never_true (row : Bar) (s : strategy) :
  (check_entry_condition row s).1 = Ok false \/
  (check_entry_condition row s).1 = Raise NameError.
Proof.
  unfold check_entry_condition, bind, get, lift, ret.
  destruct (fle (x s) (Fin (1 # 100))); simpl; auto.
Qed.

(** A flat engine stays as it is on every bar: no position is opened, no
    direction is set, no signal is written. *)
Lemma flat_bar_never_opens (i : nat) (row : Bar) (recent : list pyfloat)
    (s : strategy) :
  Qeq_bool (position s) 0 = true ->
  (process_bar i row recent s).2 = s /\
  ((process_bar i row recent s).1 = Ok Next \/
   (process_bar i row recent s).1 = Raise NameError).
Proof.
  intros Hflat. unfold process_bar, bind, get. simpl. rewrite Hflat.
  unfold check_entry_condition, bind, get, lift, ret.
  destruct (fle (x s) (Fin (1 # 100))); simpl; auto.
Qed.

(** C1, at the failing input: a frame of one bar whose volatility snapshot is
    2% and whose MA13 is above MA120.  The entry rule of the specification
    resolves long, and [run] leaves the engine flat: no layer-0 position, no
    [open_signal], no [entry_price]. *)
Theorem C1_entry_rule_holds_and_run_stays_flat :
  exists s,
    init [one_bar] [1] [1] = Ok s /\
    entry_rule_spec (x s) one_bar = Some Long /\
    run s = (Ok tt, s) /\
    Qeq_bool (position s) 0 = true /\
    open_signal s = [0%Z] /\
    direction s = None.
Proof. eexists. conj_split; vm_compute; reflexivity. Qed.

(** *** The slope-reversal check (C2) *)

Lemma iloc_neg_out {A} (l : list A) (k : nat) :
  (length l < k)%nat -> iloc_neg l k = Raise IndexError.
Proof.
  intros H. unfold iloc_neg.
  destruct (k <=? length l)%nat eqn:E; [apply Nat.leb_le in E; lia | done].
Qed.

Lemma iloc_neg_in {A} (l : list A) (k : nat) :
  (1 <= k <= length l)%nat -> exists a, iloc_neg l k = Ok a.
Proof.
  intros H. unfold iloc_neg, list_get.
  destruct (k <=? length l)%nat eqn:E; [| apply Nat.leb_gt in E; lia].
  destruct (lookup_lt_is_Some_2 l (length l - k)) as [a Ha]; [lia|].
  rewrite Ha. eauto.
Qed.

Lemma check_slope_reversal_len6 (ma13_series : list pyfloat) :
  length ma13_series = 6%nat ->
  check_slope_reversal ma13_series = Raise IndexError.
Proof.
  intros Hlen. unfold check_slope_reversal. rewrite Hlen. simpl.
  destruct (iloc_neg_in ma13_series 1) as [a1 ->]; [lia|].
  destruct (iloc_neg_in ma13_series 6) as [a6 ->]; [lia|].
  destruct (iloc_neg_in ma13_series 2) as [a2 ->]; [lia|].
  simpl. rewrite iloc_neg_out; [done | lia].
Qed.

(** C2: on every series of exactly six values the check passes its length
    guard and then reads [iloc[-7]], which is out of bounds: it raises
    [IndexError] instead of returning. *)
Theorem C2_six_values_raise_IndexError (ma13_series : list pyfloat) :
  length ma13_series = 6%nat ->
  check_slope_reversal ma13_series = Raise IndexError.
Proof. apply check_slope_reversal_len6. Qed.

Lemma C2_six_values_witness :
  length window6 = 6%nat /\ check_slope_reversal window6 = Raise IndexError.
Proof.
  split; [reflexivity | apply (C2_six_values_raise_IndexError window6); reflexivity].
Defined.

Lemma length_recent_ma13 (i : nat) (s : strategy) :
  (length (recent_ma13 i s) <= 6)%nat.
Proof.
  unfold recent_ma13, iloc_slice. rewrite length_take. lia.
Qed.

(** The window that [run] passes never confirms a reversal. *)
Lemma recent_ma13_never_confirms (i : nat) (s : strategy) :
  check_slope_reversal (recent_ma13 i s) = Ok false \/
  check_slope_reversal (recent_ma13 i s) = Raise IndexError.
Proof.
  pose proof (length_recent_ma13 i s) as Hle.
  destruct (decide (length (recent_ma13 i s) = 6%nat)) as [H6|Hn].
  - right. by apply check_slope_reversal_len6.
  - left. unfold check_slope_reversal.
    destruct (length (recent_ma13 i s) <? 6)%nat eqn:E; [done|].
    apply Nat.ltb_ge in E. lia.
Qed.

(** With seven values or more every index is in bounds and the check
    returns. *)
Lemma check_slope_reversal_len7 (ma13_series : list pyfloat) :
  (7 <= length ma13_series)%nat ->
  exists b, check_slope_reversal ma13_series = Ok b.
Proof.
  intros Hlen. unfold check_slope_reversal.
  destruct (length ma13_series <? 6)%nat; [eauto|].
  destruct (iloc_neg_in ma13_series 1) as [a1 ->]; [lia|].
  destruct (iloc_neg_in ma13_series 6) as [a6 ->]; [lia|].
  destruct (iloc_neg_in ma13_series 2) as [a2 ->]; [lia|].
  destruct (iloc_neg_in ma13_series 7) as [a7 ->]; [lia|].
  simpl. eauto.
Qed.

(** *** The outcomes of one bar *)

Lemma add_position_cases (price : Q) (layer index : nat) (s : strategy) :
  (position_list s !! layer = None /\
   add_position price layer index s = (Raise IndexError, s)) \/
  (exists a, position_list s !! layer = Some a /\
     Qeq_bool (position s + a) 0 = true /\
     add_position price layer index s = (Raise ZeroDivisionError, s)) \/
  (exists a, position_list s !! layer = Some a /\
     Qeq_bool (position s + a) 0 = false /\
     add_position price layer index s = (Ok tt, added price a layer index s)).
Proof.
  unfold add_position, bind, get, lift, list_get, pydiv. simpl.
  destruct (position_list s !! layer) as [a|]; [|by left].
  right. destruct (Qeq_bool (position s + a) 0) eqn:E; [left | right];
    exists a; by rewrite ?E.
Qed.

Lemma process_bar_take_profit (i : nat) (row : Bar) (recent : list pyfloat)
    (s : strategy) :
  take_profit_guard row recent s ->
  process_bar i row recent s = (Ok Next, profit_taken i (close row) s).
Proof.
  intros [Hpos Htake]. unfold process_bar, bind at 1, get. simpl.
  rewrite Hpos. unfold bind at 1.
  pose proof (pure_take_conj (close row) recent s) as Hp.
  destruct (pyand _ _ s) as [r s1]. simpl in *. subst. reflexivity.
Qed.

Lemma process_bar_liquidation (i : nat) (row : Bar) (recent : list pyfloat)
    (s : strategy) :
  liquidation_guard row recent s ->
  process_bar i row recent s = (Ok Break, liquidated i (close row) s).
Proof.
  intros (Hpos & Htake & Hstop & Hlast).
  unfold process_bar, bind at 1, get. simpl.
  rewrite Hpos. unfold bind at 1.
  pose proof (pure_take_conj (close row) recent s) as Hp.
  destruct (pyand (check_take_profit _) _ s) as [r s1]. simpl in *. subst.
  unfold bind at 1.
  pose proof (pure_stop_conj (close row) recent s) as Hp.
  destruct (pyand (check_stop_loss _) _ s) as [r s1]. simpl in *. subst.
  unfold bind at 1, get. simpl. rewrite Hlast. reflexivity.
Qed.

(** Every bar ends in one of four ways: the state is untouched (nothing
    fires, or a method raises before any assignment), a take-profit close,
    a forced liquidation, or an add of the next layer. *)
Lemma process_bar_cases (i : nat) (row : Bar) (recent : list pyfloat)
    (s : strategy) :
  ((process_bar i row recent s).2 = s /\
   (process_bar i row recent s).1 <> Ok Break) \/
  (take_profit_guard row recent s /\
   process_bar i row recent s = (Ok Next, profit_taken i (close row) s)) \/
  (liquidation_guard row recent s /\
   process_bar i row recent s = (Ok Break, liquidated i (close row) s)) \/
  (exists a,
     Qeq_bool (position s) 0 = false /\
     position_list s !! (current_layer s + 1)%nat = Some a /\
     Qeq_bool (position s + a) 0 = false /\
     process_bar i row recent s =
       (Ok Next, added (close row) a (current_layer s + 1) i s)).
Proof.
  destruct (Qeq_bool (position s) 0) eqn:Hpos.
  { left. destruct (flat_bar_never_opens i row recent s Hpos) as [-> [->| ->]];
      done. }
  pose proof (pure_take_conj (close row) recent s) as Hp1.
  pose proof (pure_stop_conj (close row) recent s) as Hp2.
  destruct (pyand (check_take_profit _) _ s) as [r1 s1] eqn:E1.
  simpl in Hp1. subst s1.
  destruct r1 as [[]|e1].
  - right. left.
    assert (take_profit_guard row recent s) as G by (split; [done | by rewrite E1]).
    split; [done | by apply process_bar_take_profit].
  - destruct (pyand (check_stop_loss _) _ s) as [r2 s2] eqn:E2.
    simpl in Hp2. subst s2.
    destruct r2 as [[]|e2].
    + destruct (Z.of_nat (current_layer s)
                  <? Z.of_nat (length (leverage_list s)) - 1)%Z eqn:Hlast.
      * assert (process_bar i row recent s
                = bind (add_position (close row) (current_layer s + 1) i)
                       (fun _ => ret Next) s) as Hbar.
        { unfold process_bar, bind at 1, get. simpl. rewrite Hpos.
          unfold bind at 1. rewrite E1. unfold bind at 1. rewrite E2.
          unfold bind at 1. simpl. by rewrite Hlast. }
        rewrite Hbar. unfold bind.
        destruct (add_position_cases (close row) (current_layer s + 1) i s)
          as [[_ ->]|[(a & _ & _ & ->)|(a & Ha & Hz & ->)]].
        -- by left.
        -- by left.
        -- right. right. right. exists a. done.
      * right. right. left.
        assert (liquidation_guard row recent s) as G.
        { repeat split; [done | by rewrite E1 | by rewrite E2 | done]. }
        split; [done | by apply process_bar_liquidation].
    + left.
      assert (process_bar i row recent s = (Ok Next, s)) as ->; [|done].
      unfold process_bar, bind at 1, get. simpl. rewrite Hpos.
      unfold bind at 1. rewrite E1. unfold bind at 1. by rewrite E2.
    + left.
      assert (process_bar i row recent s = (Raise e2, s)) as ->; [|done].
      unfold process_bar, bind at 1, get. simpl. rewrite Hpos.
      unfold bind at 1. rewrite E1. unfold bind at 1. by rewrite E2.
  - left.
    assert (process_bar i row recent s = (Raise e1, s)) as ->; [|done].
    unfold process_bar, bind at 1, get. simpl. rewrite Hpos.
    unfold bind at 1. by rewrite E1.
Qed.

(** *** What a bar can change *)

(** Beside the signal columns and the printed lines, a bar writes only
    [position], [entry_price], [total_profit] and [current_layer]. *)
Lemma process_bar_frame (i : nat) (row : Bar) (recent : list pyfloat)
    (s : strategy) :
  total_loss (process_bar i row recent s).2 = total_loss s /\
  direction (process_bar i row recent s).2 = direction s /\
  position_list (process_bar i row recent s).2 = position_list s /\
  leverage_list (process_bar i row recent s).2 = leverage_list s /\
  x (process_bar i row recent s).2 = x s /\
  y (process_bar i row recent s).2 = y s /\
  df (process_bar i row recent s).2 = df s.
Proof.
  destruct (process_bar_cases i row recent s)
    as [[E _]|[[_ E]|[[_ E]|(a & _ & _ & _ & E)]]]; by rewrite E.
Qed.

Lemma keeps_total_loss_bar i row recent :
  keeps total_loss (process_bar i row recent).
Proof. intros s. apply process_bar_frame. Qed.


Lemma keeps_position_list_bar i row recent :
  keeps position_list (process_bar i row recent).
Proof. intros s. apply process_bar_frame. Qed.

(** A property of the state that every bar preserves is preserved by the
    loop, however it ends. *)
Lemma run_rows_invariant (P : strategy -> Prop)
    (recent_of : nat -> strategy -> list pyfloat) :
  (forall i row recent s, P s -> P (process_bar i row recent s).2) ->
  forall rows s, P s -> P (run_rows recent_of rows s).2.
Proof.
  intros Hstep rows. induction rows as [|[i row] rest IH]; intros s Hs; [done|].
  simpl. unfold bind at 1. simpl. unfold bind.
  pose proof (Hstep i row (recent_of i s) s Hs) as H1.
  destruct (process_bar i row (recent_of i s) s) as [[[]|e] s1]; simpl in *;
    auto.
Qed.

Lemma keeps_total_loss_run_rows recent_of rows :
  keeps total_loss (run_rows recent_of rows).
Proof.
  intros s.
  apply (run_rows_invariant (fun s' => total_loss s' = total_loss s));
    [|done].
  intros i row recent s1 H1. by rewrite keeps_total_loss_bar.
Qed.

Lemma init_fields frame leverage positions s :
  init frame leverage positions = Ok s ->
  df s = frame /\ position s = 0 /\ total_loss s = 0 /\
  current_layer s = 0%nat /\ direction s = None /\
  position_list s = positions /\ leverage_list s = leverage.
Proof.
  unfold init, result_bind.
  destruct (calculate_4h_volatility frame); [|done].
  destruct (calculate_1h_volatility frame); [|done].
  intros [= <-]. done.
Qed.

(** *** The cumulative loss (C10) *)

(** C10: no bar writes [total_loss]; from the state that [__init__] builds it
    is 0 after every processed bar, and the cumulative-loss comparison of
    [check_stop_loss] is false there. *)
Theorem C10_total_loss_stays_zero (frame : list Bar) (leverage positions : list Q)
    (s0 : strategy) (k : nat) :
  init frame leverage positions = Ok s0 ->
  (forall i row recent s,
      total_loss (process_bar i row recent s).2 = total_loss s) /\
  total_loss (run_rows recent_ma13 (take k (iterrows frame)) s0).2 = 0 /\
  Qle_bool (1 # 2)
    (total_loss (run_rows recent_ma13 (take k (iterrows frame)) s0).2) = false /\
  total_loss (run s0).2 = 0.
Proof.
  intros Hinit. apply init_fields in Hinit as (Hdf & _ & Hloss & _).
  split; [intros; apply keeps_total_loss_bar|].
  rewrite keeps_total_loss_run_rows, Hloss. repeat split.
  unfold run, bind, get. simpl. by rewrite keeps_total_loss_run_rows.
Qed.

Lemma C10_total_loss_witness :
  exists s0,
    init [one_bar; one_bar] [1] [1] = Ok s0 /\
    total_loss (run_rows recent_ma13 (take 2 (iterrows [one_bar; one_bar])) s0).2 = 0.
Proof.
  eexists. split; [vm_compute; reflexivity|].
  eapply (C10_total_loss_stays_zero [one_bar; one_bar] [1] [1] _ 2).
  vm_compute; reflexivity.
Defined.

(** *** Forced liquidation (C3) *)

(** The loop is left by [break] only on a forced liquidation. *)
Lemma break_only_on_liquidation (i : nat) (row : Bar) (recent : list pyfloat)
    (s : strategy) :
  (process_bar i row recent s).1 = Ok Break <-> liquidation_guard row recent s.
Proof.
  split.
  - intros Hb.
    destruct (process_bar_cases i row recent s)
      as [[_ Hn]|[[_ E]|[[G _]|(a & _ & _ & _ & E)]]];
      [done | by rewrite E in Hb | done | by rewrite E in Hb].
  - intros G. by rewrite (process_bar_liquidation i row recent s G).
Qed.

(** On the loop body, whatever window is supplied: when a position is open,
    the take-profit close did not fire, [check_stop_loss] and the
    slope-reversal check both hold and the current layer is the last one,
    the bar writes [close_signal], resets [position] and [current_layer] and
    breaks out of the loop: the rows after it are not processed. *)
Lemma liquidation_stops_the_run
    (recent_of : nat -> strategy -> list pyfloat) (i : nat) (row : Bar)
    (rest : list (nat * Bar)) (s : strategy) :
  liquidation_guard row (recent_of i s) s ->
  process_bar i row (recent_of i s) s
    = (Ok Break, liquidated i (close row) s) /\
  run_rows recent_of ((i, row) :: rest) s
    = (Ok tt, liquidated i (close row) s).
Proof.
  intros G. pose proof (process_bar_liquidation i row _ s G) as E.
  split; [done|].
  simpl. unfold bind at 1, get. simpl. unfold bind. by rewrite E.
Qed.

(** C3, at the failing input: an engine over seven one-minute bars and a
    single layer holds a position entered at 100 (opened through
    [add_position], the entry of [run] being dead code).  At bar 6 the price
    is 110, so the stop-loss condition holds at the last layer, and the fast
    MA has reversed its slope in the words of the specification; bars 0 to 5
    meet neither condition.  [run] does not liquidate there: the slope check
    reads the seventh value from the end of a window of six and raises
    [IndexError]; [close_signal] stays 0 and the position stays open. *)
Theorem C3_liquidation_bar_raises_IndexError :
  exists s0 s1,
    init (frame_closing_at 110) [1] [1] = Ok s0 /\
    add_position 100 0 0 s0 = (Ok tt, s1) /\
    Qeq_bool (position s1) 0 = false /\
    current_layer s1 = 0%nat /\
    length (leverage_list s1) = 1%nat /\
    (check_stop_loss 100 s1).1 = Ok false /\
    (check_stop_loss 110 s1).1 = Ok true /\
    slope_reversal_spec (MA13 <$> df s1) 6 = true /\
    (forall t, (t < 6)%nat -> slope_reversal_spec (MA13 <$> df s1) t = false) /\
    run_rows recent_ma13 (take 6 (iterrows (df s1))) s1 = (Ok tt, s1) /\
    recent_ma13 6 s1 = window6 /\
    check_slope_reversal (recent_ma13 6 s1) = Raise IndexError /\
    run s1 = (Raise IndexError, s1) /\
    close_signal s1 = replicate 7 0%Z /\
    position s1 == 1.
Proof.
  eexists _, _.
  split; [vm_compute; reflexivity|].
  split; [vm_compute; reflexivity|].
  conj_split; try (vm_compute; reflexivity).
  intros t Ht. unfold slope_reversal_spec.
  destruct (Nat.leb_spec 6 t) as [H|H]; [lia | reflexivity].
Qed.

(** *** The take-profit close (C4) *)

(** Whatever the direction, a take-profit close adds [price - entry_price]
    to [total_profit] and marks the bar. *)
Lemma take_profit_realises_unsigned (i : nat) (row : Bar)
    (recent : list pyfloat) (s : strategy) :
  take_profit_guard row recent s ->
  total_profit (process_bar i row recent s).2
    = total_profit s + (close row - entry_price s) /\
  close_signal (process_bar i row recent s).2 = <[i := 1%Z]> (close_signal s).
Proof.
  intros G. by rewrite (process_bar_take_profit i row recent s G).
Qed.

(** C4, at the failing input: the same engine, holding a position entered
    at 100, over bars that close at 100 six times and then at 90.  At bar 6
    the take-profit test of the code holds (a move of 10% against a target
    of 1%; a direction that is not ['long'] is tested as a short) and the
    fast MA has reversed its slope in the words of the specification.  [run]
    does not close there: the slope check raises [IndexError] on its window
    of six values; [close_signal] stays 0 and [total_profit] stays 0. *)
Theorem C4_take_profit_bar_raises_IndexError :
  exists s0 s1,
    init (frame_closing_at 90) [1] [1] = Ok s0 /\
    add_position 100 0 0 s0 = (Ok tt, s1) /\
    Qeq_bool (position s1) 0 = false /\
    (check_take_profit 100 s1).1 = Ok false /\
    (check_take_profit 90 s1).1 = Ok true /\
    slope_reversal_spec (MA13 <$> df s1) 6 = true /\
    run_rows recent_ma13 (take 6 (iterrows (df s1))) s1 = (Ok tt, s1) /\
    check_slope_reversal (recent_ma13 6 s1) = Raise IndexError /\
    run s1 = (Raise IndexError, s1) /\
    close_signal s1 = replicate 7 0%Z /\
    total_profit s1 = 0 /\
    position s1 == 1.
Proof.
  eexists _, _.
  split; [vm_compute; reflexivity|].
  split; [vm_compute; reflexivity|].
  conj_split; vm_compute; reflexivity.
Qed.

(** *** The reset on close (C5) *)

Lemma cons_neq_self {A} (a : A) (l : list A) : a :: l <> l.
Proof.
  intros H. apply (f_equal length) in H. simpl in H. lia.
Qed.






(** *** The sign of the position (C9) *)

Lemma process_bar_position_nonneg (i : nat) (row : Bar)
    (recent : list pyfloat) (s : strategy) :
  sizes_positive s -> 0 <= position s ->
  sizes_positive (process_bar i row recent s).2 /\
  0 <= position (process_bar i row recent s).2.
Proof.
  intros Hsz Hpos. split.
  { unfold sizes_positive. by rewrite keeps_position_list_bar. }
  destruct (process_bar_cases i row recent s)
    as [[E _]|[[_ E]|[[_ E]|(a & _ & Ha & _ & E)]]]; rewrite E; simpl.
  - done.
  - apply Qle_refl.
  - apply Qle_refl.
  - assert (0 < a) by (apply Hsz; by eapply list_elem_of_lookup_2). lra.
Qed.

(** C9: with every entry of [position_list] positive, a state whose position
    is not negative (the flat state of [__init__] is one) keeps
    [position >= 0] through every bar and through the loop over any rows. *)
Theorem C9_position_never_negative
    (recent_of : nat -> strategy -> list pyfloat)
    (rows : list (nat * Bar)) (s : strategy) :
  (forall a, a ∈ position_list s -> 0 < a) ->
  0 <= position s ->
  (forall i row recent, 0 <= position (process_bar i row recent s).2) /\
  0 <= position (run_rows recent_of rows s).2.
Proof.
  intros Hsz Hpos. split.
  - intros i row recent. by apply process_bar_position_nonneg.
  - apply (run_rows_invariant
             (fun s' => sizes_positive s' /\ 0 <= position s') recent_of);
      [|done].
    intros i row recent s1 [H1 H2]. by apply process_bar_position_nonneg.
Qed.

Lemma C9_position_witness :
  (forall a, a ∈ position_list (open_state Long 0) -> 0 < a) /\
  0 <= position (open_state Long 0) /\
  position (run_rows (fun _ _ => reversal7) [(7%nat, bar_at 98)]
              (open_state Long 0)).2 == 2 /\
  0 <= position (run_rows (fun _ _ => reversal7) [(7%nat, bar_at 98)]
                   (open_state Long 0)).2.
Proof.
  assert (forall a, a ∈ position_list (open_state Long 0) -> 0 < a) as Hsz.
  { intros a Ha. simpl in Ha.
    apply elem_of_cons in Ha as [->|Ha]; [reflexivity|].
    apply elem_of_cons in Ha as [->|Ha]; [reflexivity|].
    by apply elem_of_nil in Ha. }
  assert (0 <= position (open_state Long 0)) as Hpos by (simpl; lra).
  split; [exact Hsz|]. split; [exact Hpos|].
  split; [vm_compute; reflexivity|].
  apply (C9_position_never_negative (fun _ _ => reversal7)
           [(7%nat, bar_at 98)] (open_state Long 0) Hsz Hpos).
Defined.

(** The flat state of [__init__] meets the hypothesis on the position. *)
Lemma init_position_nonneg frame leverage positions s :
  init frame leverage positions = Ok s -> 0 <= position s.
Proof.
  intros H. apply init_fields in H as (_ & -> & _). apply Qle_refl.
Qed.

(** *** The average entry price (C8) *)

Lemma add_position_ok (price : Q) (layer index : nat) (a : Q) (s : strategy) :
  0 < a -> 0 <= position s ->
  position_list s !! layer = Some a ->
  add_position price layer index s = (Ok tt, added price a layer index s).
Proof.
  intros Ha Hpos Hl.
  destruct (add_position_cases price layer index s)
    as [[Hn _]|[(b & Hb & Hz & _)|(b & Hb & _ & E)]].
  - congruence.
  - rewrite Hl in Hb. injection Hb as <-.
    apply Qeq_bool_iff in Hz. lra.
  - rewrite Hl in Hb. by injection Hb as <-.
Qed.

Lemma size_sum_nonneg (sizes : list Q) (prices : list Q) :
  (forall a, a ∈ sizes -> 0 < a) -> 0 <= size_sum (zip prices sizes).
Proof.
  revert sizes. induction prices as [|p prices IH]; intros [|a sizes] H;
    simpl; try lra.
  assert (0 < a) by (apply H; left).
  assert (0 <= size_sum (zip prices sizes)).
  { apply IH. intros b Hb. apply H. by right. }
  lra.
Qed.

Lemma add_layers_accumulates (prices : list Q) :
  forall (layer index : nat) (s : strategy),
    sizes_positive s -> 0 <= position s ->
    (length prices + layer <= length (position_list s))%nat ->
    exists s',
      add_layers prices layer index s = (Ok tt, s') /\
      position s'
        == position s + size_sum (zip prices (drop layer (position_list s))) /\
      entry_price s' * position s'
        == entry_price s * position s
           + weighted_sum (zip prices (drop layer (position_list s))).
Proof.
  induction prices as [|p prices IH]; intros layer index s Hsz Hpos Hlen.
  - exists s. simpl. repeat split; lra.
  - simpl in Hlen.
    destruct (lookup_lt_is_Some_2 (position_list s) layer) as [a Ha]; [lia|].
    assert (0 < a) as Hpa by (apply Hsz; by eapply list_elem_of_lookup_2).
    pose proof (add_position_ok p layer index a s Hpa Hpos Ha) as E.
    destruct (IH (S layer) index (added p a layer index s)) as (s' & E' & Hp & He).
    + done.
    + simpl. lra.
    + simpl. lia.
    + exists s'. split.
      * simpl. unfold bind. by rewrite E.
      * rewrite (drop_S _ _ _ Ha). simpl in *. split.
        -- rewrite Hp. ring.
        -- rewrite He. field. lra.
Qed.

Lemma size_sum_pos (sizes prices : list Q) :
  (forall a, a ∈ sizes -> 0 < a) ->
  prices <> [] -> sizes <> [] -> 0 < size_sum (zip prices sizes).
Proof.
  intros H Hp Hs. destruct prices as [|p prices]; [done|].
  destruct sizes as [|a sizes]; [done|]. simpl.
  assert (0 < a) by (apply H; left).
  assert (0 <= size_sum (zip prices sizes)).
  { apply size_sum_nonneg. intros b Hb. apply H. by right. }
  lra.
Qed.

(** C8, as stated, fails: no layer size is validated.  A size of [-1] is
    added as it is (the average is divided by the total [-1]), and a size of
    [0] raises [ZeroDivisionError]; [InvalidLayerConfigError] is raised in
    neither case. *)
Lemma C8_counterexample_no_layer_validation :
  add_position 100 0 0 (flat_state [1] [- (1)])
    = (Ok tt, added 100 (- (1)) 0 0 (flat_state [1] [- (1)])) /\
  position (added 100 (- (1)) 0 0 (flat_state [1] [- (1)])) == - (1) /\
  (add_position 100 0 0 (flat_state [1] [- (1)])).1
    <> Raise InvalidLayerConfigError /\
  (add_position 100 0 0 (flat_state [1] [0])).1 = Raise ZeroDivisionError.
Proof. conj_split; vm_compute; (reflexivity || discriminate). Qed.

(** C8, amended: with every entry of [position_list] positive and a position
    that is not negative, an add of the size [a] at price [p] returns and
    sets [entry_price] to [(e*q + p*a) / (q + a)]; and from a flat state the
    successive adds at layers 0, 1, ... leave [entry_price] equal to the
    position-weighted average of the prices of all layers added. *)
Theorem C8_entry_price_is_the_weighted_average (s : strategy) :
  (forall a, a ∈ position_list s -> 0 < a) ->
  0 <= position s ->
  (forall price layer index a,
      position_list s !! layer = Some a ->
      exists s',
        add_position price layer index s = (Ok tt, s') /\
        entry_price s'
          = (entry_price s * position s + price * a) / (position s + a) /\
        position s' = position s + a) /\
  (position s == 0 ->
   forall prices index,
     prices <> [] ->
     (length prices <= length (position_list s))%nat ->
     exists s',
       add_layers prices 0 index s = (Ok tt, s') /\
       position s' == size_sum (zip prices (position_list s)) /\
       entry_price s' == weighted_average (zip prices (position_list s))).
Proof.
  intros Hsz Hpos. split.
  - intros price layer index a Ha.
    assert (0 < a) as Hpa by (apply Hsz; by eapply list_elem_of_lookup_2).
    exists (added price a layer index s).
    by rewrite (add_position_ok price layer index a s Hpa Hpos Ha).
  - intros Hflat prices index Hne Hlen.
    destruct (add_layers_accumulates prices 0 index s Hsz Hpos)
      as (s' & E & Hp & He); [lia|].
    rewrite drop_0 in Hp, He.
    assert (0 < size_sum (zip prices (position_list s))) as Hs.
    { apply size_sum_pos; [done | done |].
      intros Hnil. rewrite Hnil in Hlen. destruct prices; simpl in *; [done | lia]. }
    exists s'. split; [done|].
    assert (position s' == size_sum (zip prices (position_list s))) as Hp'.
    { rewrite Hp, Hflat. ring. }
    split; [done|].
    unfold weighted_average.
    assert (entry_price s' * size_sum (zip prices (position_list s))
            == weighted_sum (zip prices (position_list s))) as He'.
    { rewrite <- Hp', He, Hflat. ring. }
    rewrite <- He'. field. lra.
Qed.

Lemma C8_weighted_average_witness :
  (forall a, a ∈ position_list (flat_state [1; 2] [1; 3]) -> 0 < a) /\
  0 <= position (flat_state [1; 2] [1; 3]) /\
  exists s',
    add_layers [100; 96] 0 0 (flat_state [1; 2] [1; 3]) = (Ok tt, s') /\
    position s' == 4 /\
    entry_price s' == 97.
Proof.
  assert (forall a, a ∈ position_list (flat_state [1; 2] [1; 3]) -> 0 < a)
    as Hsz.
  { intros a Ha. simpl in Ha.
    apply elem_of_cons in Ha as [->|Ha]; [reflexivity|].
    apply elem_of_cons in Ha as [->|Ha]; [reflexivity|].
    by apply elem_of_nil in Ha. }
  assert (0 <= position (flat_state [1; 2] [1; 3])) as Hpos by (simpl; lra).
  split; [exact Hsz|]. split; [exact Hpos|].
  destruct (C8_entry_price_is_the_weighted_average _ Hsz Hpos) as [_ Havg].
  destruct (Havg (Qeq_refl 0) [100; 96] 0%nat) as (s' & E & Hp & He).
  - discriminate.
  - simpl. lia.
  - exists s'. split; [exact E|]. split.
    + rewrite Hp. vm_compute. reflexivity.
    + rewrite He. vm_compute. reflexivity.
Defined.

(** *** The volatility snapshots (C7) *)

Lemma fold_Qmax_ge (l : list Q) (a : Q) :
  a <= fold_left Qmax l a /\ forall q, q ∈ l -> q <= fold_left Qmax l a.
Proof.
  revert a. induction l as [|b l IH]; intros a; simpl.
  - split; [apply Qle_refl | intros q Hq; by apply elem_of_nil in Hq].
  - destruct (IH (Qmax a b)) as [H1 H2]. split.
    + eapply Qle_trans; [apply Q.le_max_l | exact H1].
    + intros q Hq. apply elem_of_cons in Hq as [->|Hq]; [|by apply H2].
      eapply Qle_trans; [apply Q.le_max_r | exact H1].
Qed.

Lemma fold_Qmin_le (l : list Q) (a : Q) :
  fold_left Qmin l a <= a /\ forall q, q ∈ l -> fold_left Qmin l a <= q.
Proof.
  revert a. induction l as [|b l IH]; intros a; simpl.
  - split; [apply Qle_refl | intros q Hq; by apply elem_of_nil in Hq].
  - destruct (IH (Qmin a b)) as [H1 H2]. split.
    + eapply Qle_trans; [exact H1 | apply Q.le_min_l].
    + intros q Hq. apply elem_of_cons in Hq as [->|Hq]; [|by apply H2].
      eapply Qle_trans; [exact H1 | apply Q.le_min_r].
Qed.




Lemma Zlist_min_spec (k : Z) (l : list Z) :
  Zlist_min k l ∈ k :: l /\
  (Zlist_min k l <= k)%Z /\ forall z, z ∈ l -> (Zlist_min k l <= z)%Z.
Proof.
  induction l as [|a l (Hin & Hk & Hl)]; simpl.
  - repeat split; [left | lia | intros z Hz; by apply elem_of_nil in Hz].
  - repeat split.
    + destruct (Z.min_spec a (Zlist_min k l)) as [[_ ->]|[_ ->]].
      * right; left.
      * apply elem_of_cons in Hin as [->|Hin]; [left | right; by right].
    + lia.
    + intros z Hz. apply elem_of_cons in Hz as [->|Hz]; [lia|].
      specialize (Hl z Hz). lia.
Qed.

Lemma Zlist_max_spec (k : Z) (l : list Z) :
  (k <= Zlist_max k l)%Z /\ forall z, z ∈ l -> (z <= Zlist_max k l)%Z.
Proof.
  induction l as [|a l (Hk & Hl)]; simpl.
  - split; [lia | intros z Hz; by apply elem_of_nil in Hz].
  - split; [lia|].
    intros z Hz. apply elem_of_cons in Hz as [->|Hz]; [lia|].
    specialize (Hl z Hz). lia.
Qed.


(** The resampled buckets start with a bucket that has a row. *)
Lemma bucket_ids_head (w : Z) (rows : list Bar) :
  rows <> [] ->
  exists k ids b,
    bucket_ids w rows = k :: ids /\ b ∈ rows /\ bucket_of w b = k.
Proof.
  destruct rows as [|b0 rest]; [done|]. intros _. unfold bucket_ids.
  destruct (Zlist_min_spec (bucket_of w b0) (bucket_of w <$> rest))
    as (Hin & Hm0 & _).
  destruct (Zlist_max_spec (bucket_of w b0) (bucket_of w <$> rest))
    as (HM0 & _).
  rewrite seqZ_cons by lia.
  eexists _, _.
  apply elem_of_cons in Hin as [E|Hin].
  - exists b0. split; [done|]. split; [left | done].
  - apply list_elem_of_fmap in Hin as (b & E & Hb).
    exists b. split; [done|]. split; [by right | done].
Qed.



Lemma last_24h_nonempty (rows : list Bar) : rows <> [] -> last_24h rows <> [].
Proof.
  intros Hne Hnil. apply (f_equal length) in Hnil.
  unfold last_24h in Hnil. rewrite length_drop in Hnil. simpl in Hnil.
  destruct rows; [done | simpl in *; lia].
Qed.




Lemma Qltb_lt (a b : Q) : Qltb a b = true <-> a < b.
Proof.
  unfold Qltb. rewrite negb_true_iff. split.
  - intros H. apply Qnot_le_lt. intros Hle.
    apply Qle_bool_iff in Hle. congruence.
  - intros H. destruct (Qle_bool b a) eqn:E; [|done].
    apply Qle_bool_iff in E. lra.
Qed.

Lemma Qltb_ge (a b : Q) : Qltb a b = false <-> b <= a.
Proof.
  unfold Qltb. rewrite negb_false_iff. apply Qle_bool_iff.
Qed.



(** No bar count raises [InsufficientDataError]: an empty frame raises the
    [ValueError] of [max], every other frame returns. *)
Lemma calculate_volatility_outcomes (w : Z) (rows : list Bar) :
  (rows = [] /\ calculate_volatility w rows = Raise ValueError) \/
  (rows <> [] /\ exists v, calculate_volatility w rows = Ok v).
Proof.
  destruct rows as [|b rows]; [by left | right]. split; [done|].
  unfold calculate_volatility, resample.
  destruct (bucket_ids_head w (last_24h (b :: rows)))
    as (k & ids & _ & -> & _); [by apply last_24h_nonempty|].
  simpl. eauto.
Qed.















(** ** Properties of the wave-divergence signal *)

(** *** Shifted columns and wave ids *)

Lemma shift1_lookup_0 {A} (l : list A) :
  l <> [] -> shift1 l !! 0%nat = Some None.
Proof. by destruct l. Qed.

Lemma removelast_lookup {A} (l : list A) (i : nat) :
  (S i < length l)%nat -> removelast l !! i = l !! i.
Proof.
  revert i. induction l as [|a l IH]; intros i Hi; [simpl in Hi; lia|].
  destruct l as [|b l]; [simpl in Hi; lia|].
  change (removelast (a :: b :: l)) with (a :: removelast (b :: l)).
  destruct i as [|i]; [done|]. simpl. apply IH. simpl in *. lia.
Qed.

Lemma length_removelast {A} (l : list A) :
  length (removelast l) = (length l - 1)%nat.
Proof.
  induction l as [|a l IH]; [done|].
  destruct l as [|b l]; [done|].
  change (removelast (a :: b :: l)) with (a :: removelast (b :: l)).
  simpl in *. lia.
Qed.

Lemma length_shift1 {A} (l : list A) : length (shift1 l) = length l.
Proof.
  destruct l as [|a l]; [done|].
  change (shift1 (a :: l)) with (None :: (Some <$> removelast (a :: l))).
  rewrite length_cons, length_fmap, length_removelast. simpl. lia.
Qed.

Lemma shift1_lookup_S {A} (l : list A) (i : nat) :
  (S i < length l)%nat -> shift1 l !! S i = Some (l !! i).
Proof.
  intros Hi. destruct l as [|a l]; [simpl in Hi; lia|].
  change (shift1 (a :: l)) with (None :: (Some <$> removelast (a :: l))).
  rewrite lookup_cons.
  rewrite list_lookup_fmap, removelast_lookup by done.
  destruct (lookup_lt_is_Some_2 (a :: l) i) as [v Hv]; [lia|].
  by rewrite Hv.
Qed.

Lemma sign_of_cases (d : option Q) :
  (sign_of d = 1%Z /\ exists q, d = Some q /\ 0 < q) \/
  (sign_of d = (-1)%Z /\ (d = None \/ exists q, d = Some q /\ q <= 0)).
Proof.
  unfold sign_of, gt_nan. destruct d as [q|]; [|right; auto].
  destruct (Qltb 0 q) eqn:E.
  - apply Qltb_lt in E. left. eauto.
  - apply Qltb_ge in E. right. eauto.
Qed.

(** The ids that [cumsum] gives to the flags of [sign_change]. *)
Lemma wave_ids_from_signs (sgn : list Z) :
  cumsum (flag_of <$> zip_with (fun a b => Z.mul a <$> b) sgn (shift1 sgn))
  = match sgn with
    | [] => []
    | s :: rest => 0%nat :: waves_from 0 s rest
    end.
Proof.
  destruct sgn as [|s rest]; [done|].
  unfold shift1, cumsum. simpl. f_equal.
  generalize 0%nat as acc. revert s.
  induction rest as [|s' rest IH]; intros s acc; [done|].
  change (removelast (s :: s' :: rest)) with (s :: removelast (s' :: rest)).
  simpl. f_equal. apply IH.
Qed.

Lemma is_sign_sign_of (d : option Q) : is_sign (sign_of d).
Proof. destruct (sign_of_cases d) as [[-> _]|[-> _]]; [by left | by right]. Qed.

Lemma flipn_add (a b : nat) (s : Z) : flipn (a + b) s = flipn a (flipn b s).
Proof.
  unfold flipn. rewrite Nat.even_add.
  destruct (Nat.even a), (Nat.even b); simpl; lia.
Qed.

Lemma waves_from_step (sg : list Z) :
  forall (acc : nat) (prev : Z) (t : nat) (a b : Z),
    sg !! t = Some a -> sg !! S t = Some b ->
    exists n,
      waves_from acc prev sg !! t = Some n /\
      waves_from acc prev sg !! S t
        = Some (if (b * a <? 0)%Z then S n else n).
Proof.
  induction sg as [|s sg IH]; intros acc prev t a b Ha Hb; [done|].
  destruct t as [|t].
  - destruct sg as [|s' sg]; [done|]. simpl in *.
    injection Ha as ->. injection Hb as ->. eauto.
  - simpl in *. by apply IH.
Qed.

Lemma waves_from_sign (sg : list Z) :
  forall (acc : nat) (prev : Z) (j w : nat) (s : Z),
    Forall is_sign sg -> is_sign prev ->
    waves_from acc prev sg !! j = Some w -> sg !! j = Some s ->
    (acc <= w)%nat /\ s = flipn (w - acc) prev.
Proof.
  induction sg as [|s0 sg IH]; intros acc prev j w s Hsg Hprev Hw Hs; [done|].
  apply Forall_cons in Hsg as [Hs0 Hsg].
  assert ((if (s0 * prev <? 0)%Z then S acc else acc) = acc /\ s0 = prev \/
          (if (s0 * prev <? 0)%Z then S acc else acc) = S acc /\ s0 = (- prev)%Z)
    as Hhead.
  { destruct Hs0 as [-> | ->], Hprev as [-> | ->]; simpl; auto. }
  destruct j as [|j]; simpl in Hw, Hs.
  - injection Hw as <-. injection Hs as <-.
    destruct Hhead as [[-> ->]|[-> ->]].
    + rewrite Nat.sub_diag. split; [lia | done].
    + replace (S acc - acc)%nat with 1%nat by lia. split; [lia | done].
  - destruct (IH _ s0 j w s Hsg Hs0 Hw Hs) as [Hle ->].
    destruct Hhead as [[E ->]|[E ->]]; rewrite E in Hle |- *.
    + split; [lia | done].
    + split; [lia|].
      replace (w - acc)%nat with ((w - S acc) + 1)%nat by lia.
      by rewrite flipn_add.
Qed.

(** Membership in a group, row by row. *)
Lemma elem_of_group (g : nat) (ids : list nat) (vals : list (option Q))
    (d : option Q) :
  d ∈ group g ids vals <->
  exists u, ids !! u = Some g /\ vals !! u = Some d.
Proof.
  unfold group. rewrite list_elem_of_fmap. split.
  - intros ([g' d'] & -> & Hin). apply list_elem_of_filter in Hin as [Hg Hin].
    simpl in Hg. subst g'. apply list_elem_of_lookup in Hin as [u Hu].
    unfold zip in Hu. apply lookup_zip_with_Some in Hu as (a & b & [= <- <-] & Ha & Hb).
    eauto.
  - intros (u & Hu & Hd). exists (g, d). split; [done|].
    apply list_elem_of_filter. split; [done|].
    apply list_elem_of_lookup. exists u. unfold zip.
    apply lookup_zip_with_Some. eauto.
Qed.

Lemma Qsum_nonneg (l : list Q) : (forall q, q ∈ l -> 0 <= q) -> 0 <= Qsum l.
Proof.
  induction l as [|a l IH]; intros H; simpl; [lra|].
  assert (0 <= a) by (apply H; left).
  assert (0 <= Qsum l) by (apply IH; intros q Hq; apply H; by right).
  lra.
Qed.

Lemma Qsum_nonpos (l : list Q) : (forall q, q ∈ l -> q <= 0) -> Qsum l <= 0.
Proof.
  induction l as [|a l IH]; intros H; simpl; [lra|].
  assert (a <= 0) by (apply H; left).
  assert (Qsum l <= 0) by (apply IH; intros q Hq; apply H; by right).
  lra.
Qed.

Lemma elem_of_omap_id (l : list (option Q)) (q : Q) :
  q ∈ omap id l <-> Some q ∈ l.
Proof.
  rewrite list_elem_of_omap. split.
  - intros (d & Hd & E). simpl in E. by subst d.
  - intros H. by exists (Some q).
Qed.

Lemma group_size_pos (n : nat) : 0 < inject_Z (Z.of_nat (Nat.max n 1)).
Proof. unfold Qlt, inject_Z. simpl. lia. Qed.

(** A wave of positive differences has a positive strength, a wave of
    differences that are not positive (or NaN) a strength that is not. *)
Lemma strength_pos (grp : list (option Q)) :
  grp <> [] -> (forall d, d ∈ grp -> sign_of d = 1%Z) -> 0 < strength grp.
Proof.
  intros Hne Hall. unfold strength.
  apply Qlt_shift_div_l; [apply group_size_pos|]. rewrite Qmult_0_l.
  destruct grp as [|d grp]; [done|].
  destruct (sign_of_cases d) as [(_ & q & -> & Hq)|[E _]].
  2:{ rewrite (Hall d) in E by left. done. }
  change (0 < q + Qsum (omap id grp)).
  assert (0 <= Qsum (omap id grp)); [|lra].
  apply Qsum_nonneg. intros q' Hq'. apply elem_of_omap_id in Hq'.
  destruct (sign_of_cases (Some q')) as [(_ & q'' & [= <-] & Hq'')|[E _]];
    [lra|].
  rewrite (Hall (Some q')) in E by (by right). done.
Qed.

Lemma strength_nonpos (grp : list (option Q)) :
  (forall d, d ∈ grp -> sign_of d = (-1)%Z) -> strength grp <= 0.
Proof.
  intros Hall. unfold strength.
  apply Qle_shift_div_r; [apply group_size_pos|]. rewrite Qmult_0_l.
  unfold sum_skipna. apply Qsum_nonpos. intros q Hq.
  apply elem_of_omap_id in Hq.
  destruct (sign_of_cases (Some q)) as [[E _]|(_ & [?|(q' & [= <-] & Hq')])];
    [|done|done].
  rewrite (Hall (Some q)) in E by done. done.
Qed.

(** *** Waves alternate in sign *)

Lemma generate_signals_wave_id (sw mw lw : nat) (closes : list Q) :
  wave_id (generate_signals sw mw lw closes)
  = wave_ids_of (diff_5_10 (generate_signals sw mw lw closes)).
Proof. reflexivity. Qed.

Lemma length_cumsum_from (flags : list bool) (acc : nat) :
  length (cumsum_from acc flags) = length flags.
Proof.
  revert acc. induction flags as [|f flags IH]; intros acc; [done|].
  simpl. by rewrite IH.
Qed.

Lemma length_wave_ids_of (diff : list (option Q)) :
  length (wave_ids_of diff) = length diff.
Proof.
  unfold wave_ids_of, cumsum.
  rewrite length_cumsum_from, length_fmap, length_zip_with, length_shift1,
    length_fmap.
  lia.
Qed.

Lemma wave_ids_of_cons (d : option Q) (diff : list (option Q)) :
  wave_ids_of (d :: diff)
  = 0%nat :: waves_from 0 (sign_of d) (sign_of <$> diff).
Proof. unfold wave_ids_of. rewrite wave_ids_from_signs. by rewrite fmap_cons. Qed.

(** The sign of a row is the sign of the first row, flipped once per wave. *)
Lemma sign_by_wave (d0 : option Q) (diff : list (option Q)) (u g : nat)
    (d : option Q) :
  wave_ids_of (d0 :: diff) !! u = Some g ->
  (d0 :: diff) !! u = Some d ->
  sign_of d = flipn g (sign_of d0).
Proof.
  rewrite wave_ids_of_cons. intros Hg Hd. destruct u as [|u]; simpl in *.
  - injection Hg as <-. by injection Hd as <-.
  - destruct (waves_from_sign (sign_of <$> diff) 0 (sign_of d0) u g (sign_of d))
      as [_ E].
    + apply Forall_fmap, Forall_forall. intros ? _. apply is_sign_sign_of.
    + apply is_sign_sign_of.
    + done.
    + by rewrite list_lookup_fmap, Hd.
    + by rewrite Nat.sub_0_r in E.
Qed.

Lemma group_sign (d0 : option Q) (diff : list (option Q)) (g : nat)
    (d : option Q) :
  d ∈ group g (wave_ids_of (d0 :: diff)) (d0 :: diff) ->
  sign_of d = flipn g (sign_of d0).
Proof.
  intros Hd. apply elem_of_group in Hd as (u & Hu & Hd).
  by eapply sign_by_wave.
Qed.

Lemma flipn_S (g : nat) (s : Z) : flipn (S g) s = (- flipn g s)%Z.
Proof.
  unfold flipn. rewrite Nat.even_succ, <- Nat.negb_even.
  destruct (Nat.even g); simpl; lia.
Qed.

(** A positive wave is stronger than the wave before it. *)
Lemma positive_wave_is_stronger (diff : list (option Q)) (g : nat)
    (d : option Q) :
  d ∈ group (S g) (wave_ids_of diff) diff -> sign_of d = 1%Z ->
  strength (group g (wave_ids_of diff) diff) <= 0 /\
  0 < strength (group (S g) (wave_ids_of diff) diff).
Proof.
  intros Hd Hs. destruct diff as [|d0 diff].
  { apply elem_of_group in Hd as (u & _ & Hu). done. }
  pose proof (group_sign d0 diff (S g) d Hd) as E. rewrite Hs in E.
  split.
  - apply strength_nonpos. intros d' Hd'.
    rewrite (group_sign d0 diff g d' Hd').
    rewrite flipn_S in E. lia.
  - apply strength_pos.
    + intros Hnil. rewrite Hnil in Hd. by apply elem_of_nil in Hd.
    + intros d' Hd'. by rewrite (group_sign d0 diff (S g) d' Hd').
Qed.

Lemma wave_ids_step (diff : list (option Q)) (t : nat) (a b : option Q) :
  diff !! t = Some a -> diff !! S t = Some b ->
  exists n,
    wave_ids_of diff !! t = Some n /\
    wave_ids_of diff !! S t
      = Some (if decide (sign_of b = sign_of a) then n else S n).
Proof.
  intros Ha Hb. destruct diff as [|d0 diff]; [done|].
  rewrite wave_ids_of_cons.
  assert (forall p q : option Q,
             (if (sign_of q * sign_of p <? 0)%Z then S else id)
             = (if decide (sign_of q = sign_of p) then id else S)) as Hflip.
  { intros p q.
    destruct (is_sign_sign_of p) as [-> | ->],
             (is_sign_sign_of q) as [-> | ->]; by simpl. }
  destruct t as [|t]; simpl in Ha, Hb.
  - injection Ha as <-. exists 0%nat. split; [done|].
    destruct diff as [|d1 diff]; [done|]. simpl in Hb. injection Hb as <-.
    simpl. f_equal.
    pose proof (f_equal (fun h => h 0%nat) (Hflip d0 d1)) as E. simpl in E.
    destruct (sign_of d1 * sign_of d0 <? 0)%Z, (decide (sign_of d1 = sign_of d0));
      done.
  - destruct (waves_from_step (sign_of <$> diff) 0 (sign_of d0) t
                (sign_of a) (sign_of b)) as (n & H1 & H2).
    + by rewrite list_lookup_fmap, Ha.
    + by rewrite list_lookup_fmap, Hb.
    + exists n. simpl. split; [done|]. rewrite H2. f_equal.
      pose proof (f_equal (fun h => h n) (Hflip a b)) as E. simpl in E.
      destruct (sign_of b * sign_of a <? 0)%Z, (decide (sign_of b = sign_of a));
        done.
Qed.

(** *** The divergence exit *)

(** The merged column [wave_strength], as a function of [diff_5_10]. *)
Lemma wave_strength_lookup (diff : list (option Q)) (t g : nat) :
  wave_ids_of diff !! t = Some g ->
  ((fun g => strength (group g (wave_ids_of diff) diff)) <$> wave_ids_of diff)
    !! t
  = Some (strength (group g (wave_ids_of diff) diff)).
Proof. intros H. by rewrite list_lookup_fmap, H. Qed.

(** On a row of positive sign the strength is never below the strength of
    the row before. *)
Lemma wave_strength_never_drops (diff : list (option Q)) (t : nat)
    (ws ws' : Q) :
  ((fun g => strength (group g (wave_ids_of diff) diff)) <$> wave_ids_of diff)
    !! S t = Some ws ->
  ((fun g => strength (group g (wave_ids_of diff) diff)) <$> wave_ids_of diff)
    !! t = Some ws' ->
  (sign_of <$> diff) !! S t = Some 1%Z ->
  ~ ws < ws'.
Proof.
  rewrite !list_lookup_fmap. intros Hws Hws' Hs.
  destruct (diff !! S t) as [b|] eqn:Hb; [|done].
  destruct (diff !! t) as [a|] eqn:Ha.
  2:{ apply lookup_ge_None in Ha. apply lookup_lt_Some in Hb. lia. }
  simpl in Hs. injection Hs as Hs.
  destruct (wave_ids_step diff t a b Ha Hb) as (n & Hn & HSn).
  rewrite Hn in Hws'. rewrite HSn in Hws. simpl in Hws, Hws'.
  injection Hws' as <-. injection Hws as <-.
  destruct (decide (sign_of b = sign_of a)) as [Heq|Hneq].
  - apply Qlt_irrefl.
  - destruct (positive_wave_is_stronger diff n b) as [H1 H2]; [|done|lra].
    apply elem_of_group. exists (S t). done.
Qed.

Lemma length_rolling_mean (w : nat) (xs : list Q) :
  length (rolling_mean w xs) = length xs.
Proof. unfold rolling_mean. by rewrite length_fmap, length_seq. Qed.

Lemma length_diff_5_10 (sw mw lw : nat) (closes : list Q) :
  length (diff_5_10 (generate_signals sw mw lw closes)) = length closes.
Proof.
  simpl. rewrite length_zip_with, !length_rolling_mean. lia.
Qed.

Lemma length_cross_signal (sw mw lw : nat) (closes : list Q) :
  length (cross_signal (short_ma (generate_signals sw mw lw closes))
                       (long_ma (generate_signals sw mw lw closes)))
  = length closes.
Proof.
  simpl. unfold cross_signal. rewrite length_zip_with, !length_rolling_mean.
  lia.
Qed.

Lemma condition_weaker_false (diff : list (option Q)) (t : nat) (v s : Z)
    (w : Q) (q : option Q) :
  (sign_of <$> diff) !! t = Some s ->
  ((fun g => strength (group g (wave_ids_of diff) diff)) <$> wave_ids_of diff)
    !! t = Some w ->
  shift1 ((fun g => strength (group g (wave_ids_of diff) diff))
            <$> wave_ids_of diff) !! t = Some q ->
  condition_weaker v s w q = false.
Proof.
  intros Hs Hw Hq. unfold condition_weaker.
  destruct (v =? 1)%Z; [|done]. simpl.
  destruct (s =? 1)%Z eqn:Es; [|done]. simpl.
  apply Z.eqb_eq in Es. subst s.
  pose proof (lookup_lt_Some _ _ _ Hw) as Hlen.
  destruct t as [|t].
  - rewrite shift1_lookup_0 in Hq.
    + by injection Hq as <-.
    + intros Hnil. rewrite Hnil in Hw. done.
  - rewrite shift1_lookup_S in Hq by done. injection Hq as <-.
    destruct (_ !! t) as [w'|] eqn:Hw'; [|done].
    unfold lt_nan, gt_nan. apply Qltb_ge. apply Qnot_lt_le.
    by eapply wave_strength_never_drops.
Qed.

(** The divergence exit withdraws no signal: the column [signal] that
    [generate_signals] returns is the column of the moving-average cross. *)
Lemma divergence_exit_never_fires (sw mw lw : nat) (closes : list Q) :
  signal (generate_signals sw mw lw closes)
  = cross_signal (short_ma (generate_signals sw mw lw closes))
                 (long_ma (generate_signals sw mw lw closes)).
Proof.
  pose proof (length_cross_signal sw mw lw closes) as Lsig.
  pose proof (length_diff_5_10 sw mw lw closes) as Ldiff.
  unfold generate_signals in *. cbn [signal short_ma long_ma diff_5_10] in *.
  fold (wave_ids_of
          (zip_with sub_nan (rolling_mean sw closes) (rolling_mean mw closes))).
  set (sig := cross_signal (rolling_mean sw closes) (rolling_mean lw closes))
    in *.
  set (diff := zip_with sub_nan (rolling_mean sw closes)
                 (rolling_mean mw closes)) in *.
  set (ws := (fun g => strength (group g (wave_ids_of diff) diff))
               <$> wave_ids_of diff).
  apply list_eq. intros t.
  destruct (sig !! t) as [v|] eqn:Hv.
  2:{ rewrite lookup_zip_with, Hv. done. }
  assert (t < length closes)%nat as Ht
    by (rewrite <- Lsig; by eapply lookup_lt_Some).
  destruct (lookup_lt_is_Some_2 (sign_of <$> diff) t) as [s Hs];
    [rewrite length_fmap; lia|].
  destruct (lookup_lt_is_Some_2 ws t) as [w Hw];
    [unfold ws; rewrite length_fmap, length_wave_ids_of; lia|].
  destruct (lookup_lt_is_Some_2 (shift1 ws) t) as [q Hq];
    [unfold ws; rewrite length_shift1, length_fmap, length_wave_ids_of; lia|].
  apply lookup_zip_with_Some. exists v, false. split; [done|]. split; [done|].
  apply lookup_zip_with_Some. exists (v, s, w), q. split.
  { simpl. symmetry. by apply (condition_weaker_false diff t v s w q). }
  split; [|done].
  unfold zip. apply lookup_zip_with_Some. exists (v, s), w.
  split; [done|]. split; [|done].
  apply lookup_zip_with_Some. by exists v, s.
Qed.

(** *** Wave ids, wave strength and the exit together (C6) *)

Lemma strength_nonempty (grp : list (option Q)) :
  grp <> [] ->
  strength grp = sum_skipna grp / inject_Z (Z.of_nat (length grp)).
Proof.
  intros Hne. unfold strength. destruct grp as [|d grp]; [done|].
  by rewrite Nat.max_l by (simpl; lia).
Qed.

(** Where no difference of the wave is NaN, the strength is the mean. *)
Lemma strength_is_mean (grp : list (option Q)) (m : Q) :
  mean_nan grp = Some m -> strength grp = m.
Proof.
  unfold mean_nan. destruct grp as [|d grp]; [done|].
  destruct (forallb _ _); [|done]. intros [= <-].
  by apply strength_nonempty.
Qed.

(** C6, at the failing input: for the closes 3, 2, 1 with the windows 1, 2
    and 3, the differences [diff_5_10] are NaN, -1/2, -1/2, all of negative
    sign, so the three rows are one wave, wave 0.  The strength the code
    gives the wave is -1/3: [x.sum()] leaves the NaN of the warm-up row out
    and [len(x)] counts the row.  The mean of [diff_5_10] over the wave,
    which the comment of the source announces, is -1/2. *)
Theorem C6_warm_up_wave_strength_is_not_the_mean :
  diff_sign (generate_signals 1 2 3 [3; 2; 1]) = [-1; -1; -1]%Z /\
  wave_id (generate_signals 1 2 3 [3; 2; 1]) = [0; 0; 0]%nat /\
  exists d1 d2 ws m,
    diff_5_10 (generate_signals 1 2 3 [3; 2; 1]) = [None; Some d1; Some d2] /\
    d1 == - (1 # 2) /\ d2 == - (1 # 2) /\
    wave_strength (generate_signals 1 2 3 [3; 2; 1]) = [ws; ws; ws] /\
    ws == - (1 # 3) /\
    mean_skipna (group 0 (wave_id (generate_signals 1 2 3 [3; 2; 1]))
                   (diff_5_10 (generate_signals 1 2 3 [3; 2; 1]))) = Some m /\
    m == - (1 # 2) /\
    mean_nan (group 0 (wave_id (generate_signals 1 2 3 [3; 2; 1]))
                (diff_5_10 (generate_signals 1 2 3 [3; 2; 1]))) = None /\
    ~ ws == m.
Proof.
  split; [vm_compute; reflexivity|].
  split; [vm_compute; reflexivity|].
  eexists _, _, _, _.
  conj_split; try (vm_compute; reflexivity).
  vm_compute. discriminate.
Qed.

(** ** Further properties of the martingale engine *)

(** *** What [run] does *)

Lemma pyand_true (a : M bool) (r : result bool) (s : strategy) :
  (pyand a (lift r) s).1 = Ok true -> r = Ok true.
Proof.
  unfold pyand, bind, lift, ret.
  destruct (a s) as [[[]|e] s1]; simpl; done.
Qed.

(** Without a confirmed reversal no branch of the loop body fires. *)
Lemma process_bar_no_reversal (i : nat) (row : Bar) (recent : list pyfloat)
    (s : strategy) :
  check_slope_reversal recent <> Ok true ->
  (process_bar i row recent s).2 = s /\
  (process_bar i row recent s).1 <> Ok Break.
Proof.
  intros Hno.
  destruct (process_bar_cases i row recent s)
    as [?|[[[_ G] _]|[[(_ & _ & G & _) _]|(a & Hpos & _ & _ & E)]]];
    [done | by apply pyand_true in G | by apply pyand_true in G |].
  exfalso.
  pose proof (pure_take_conj (close row) recent s) as Hp1.
  pose proof (pure_stop_conj (close row) recent s) as Hp2.
  destruct (pyand (check_take_profit _) _ s) as [r1 s1] eqn:E1.
  destruct (pyand (check_stop_loss _) _ s) as [r2 s2] eqn:E2.
  simpl in Hp1, Hp2. subst s1 s2.
  assert (r1 <> Ok true) as H1.
  { intros ->. apply Hno.
    apply (pyand_true (check_take_profit (close row)) _ s). by rewrite E1. }
  assert (r2 <> Ok true) as H2.
  { intros ->. apply Hno.
    apply (pyand_true (check_stop_loss (close row)) _ s). by rewrite E2. }
  assert ((process_bar i row recent s).2 = s) as Hs.
  { unfold process_bar, bind at 1, get. simpl. rewrite Hpos.
    unfold bind at 1. rewrite E1.
    destruct r1 as [[]|e1]; [done| |done].
    unfold bind at 1. rewrite E2.
    destruct r2 as [[]|e2]; done. }
  rewrite E in Hs. simpl in Hs.
  apply (f_equal stdout) in Hs. simpl in Hs.
  by apply cons_neq_self in Hs.
Qed.

Lemma run_rows_recent_ma13_untouched (rows : list (nat * Bar)) (s : strategy) :
  (run_rows recent_ma13 rows s).2 = s.
Proof.
  induction rows as [|[i row] rest IH]; [done|].
  simpl. unfold bind at 1, get. simpl. unfold bind.
  destruct (process_bar_no_reversal i row (recent_ma13 i s) s) as [Hs Hb].
  { destruct (recent_ma13_never_confirms i s) as [-> | ->]; done. }
  destruct (process_bar i row (recent_ma13 i s) s) as [[[]|e] s1];
    simpl in *; subst; done.
Qed.

(** X1: whatever the frame and whatever state the engine is in, [run]
    leaves every attribute and both signal columns as they were: it opens,
    adds, closes and liquidates nothing, and it never ends by [break]. *)
Theorem X1_run_changes_nothing (s : strategy) :
  (run s).2 = s /\
  forall rows, (run_rows recent_ma13 rows s).2 = s.
Proof.
  split; [|intros rows; apply run_rows_recent_ma13_untouched].
  unfold run, bind, get. simpl. apply run_rows_recent_ma13_untouched.
Qed.

Lemma run_rows_flat (recent_of : nat -> strategy -> list pyfloat)
    (rows : list (nat * Bar)) (s : strategy) :
  Qeq_bool (position s) 0 = true ->
  run_rows recent_of rows s
  = (if fle (x s) (Fin (1 # 100))
     then match rows with [] => Ok tt | _ => Raise NameError end
     else Ok tt, s).
Proof.
  intros Hflat. induction rows as [|[i row] rest IH].
  { simpl. by destruct (fle _ _). }
  simpl. unfold bind at 1, get. simpl. unfold bind.
  assert (process_bar i row (recent_of i s) s
          = (if fle (x s) (Fin (1 # 100)) then Raise NameError else Ok Next, s))
    as ->.
  { unfold process_bar, bind, get. simpl. rewrite Hflat.
    unfold check_entry_condition, bind, get, lift, ret.
    by destruct (fle (x s) (Fin (1 # 100))). }
  destruct (fle (x s) (Fin (1 # 100))) eqn:E; [done|].
  rewrite IH. done.
Qed.

(** X2: on a flat engine [run] returns normally when the frame is empty or
    the 4h snapshot is above 1% (or NaN), and otherwise raises [NameError]
    at the first bar; in both cases no position is opened. *)
Theorem X2_run_on_a_flat_engine (s : strategy) :
  Qeq_bool (position s) 0 = true ->
  run s = (if fle (x s) (Fin (1 # 100))
           then match df s with [] => Ok tt | _ => Raise NameError end
           else Ok tt, s).
Proof.
  intros Hflat. unfold run, bind, get. simpl.
  rewrite (run_rows_flat recent_ma13 _ s Hflat).
  unfold iterrows. destruct (df s); done.
Qed.

Lemma X2_run_on_a_flat_engine_witness :
  Qeq_bool (position calm_state) 0 = true /\
  run calm_state = (Raise NameError, calm_state).
Proof.
  split; [reflexivity|].
  exact (X2_run_on_a_flat_engine calm_state eq_refl).
Defined.

(** *** The slope-reversal check on longer series *)

Lemma iloc_neg_app {A} (pre l : list A) (k : nat) :
  (1 <= k <= length l)%nat -> iloc_neg (pre ++ l) k = iloc_neg l k.
Proof.
  intros Hk. unfold iloc_neg, list_get. rewrite length_app.
  destruct (k <=? length l)%nat eqn:E1; [|apply Nat.leb_gt in E1; lia].
  destruct (k <=? length pre + length l)%nat eqn:E2;
    [|apply Nat.leb_gt in E2; lia].
  rewrite lookup_app_r by lia.
  by replace (length pre + length l - k - length pre)%nat
    with (length l - k)%nat by lia.
Qed.

(** X3: on a series of seven values or more the check returns, and what it
    returns depends on the last seven values only: it is the sign test on
    the product of the two five-bar differences. *)
Theorem X3_slope_reversal_reads_the_last_seven (pre : list pyfloat)
    (m7 m6 m5 m4 m3 m2 m1 : pyfloat) :
  check_slope_reversal (pre ++ [m7; m6; m5; m4; m3; m2; m1])
  = Ok (flt (fmul (fsub m1 m6) (fsub m2 m7)) (Fin 0)).
Proof.
  unfold check_slope_reversal. rewrite length_app. simpl length.
  destruct (length pre + 7 <? 6)%nat eqn:E; [apply Nat.ltb_lt in E; lia|].
  rewrite !iloc_neg_app by (simpl; lia). reflexivity.
Qed.

(** *** Errors of the methods *)

(** X4: [add_position] raises [IndexError] exactly when the layer is beyond
    [position_list], and [ZeroDivisionError] exactly when the total after the
    add is zero; when it raises, nothing has been written. *)
Theorem X4_add_position_errors (price : Q) (layer index : nat) (s : strategy) :
  ((add_position price layer index s).1 = Raise IndexError
   <-> (length (position_list s) <= layer)%nat) /\
  ((add_position price layer index s).1 = Raise ZeroDivisionError
   <-> exists a, position_list s !! layer = Some a /\ position s + a == 0) /\
  (forall e, (add_position price layer index s).1 = Raise e ->
             (add_position price layer index s).2 = s).
Proof.
  destruct (add_position_cases price layer index s)
    as [[Hn E]|[(a & Ha & Hz & E)|(a & Ha & Hz & E)]]; rewrite E; simpl.
  - split; [|split]; [| |done].
    + split; [intros _; by apply lookup_ge_None | done].
    + split; [done | intros (a & Ha & _); congruence].
  - split; [|split]; [| |done].
    + split; [done|]. intros Hl. apply lookup_ge_None in Hl. congruence.
    + split; [|done]. intros _. exists a. split; [done|].
      by apply Qeq_bool_iff.
  - split; [|split]; [| |done].
    + split; [done|]. intros Hl. apply lookup_ge_None in Hl. congruence.
    + split; [done|]. intros (b & Hb & Hq). exfalso.
      rewrite Ha in Hb. injection Hb as <-.
      apply Qeq_bool_iff in Hq. congruence.
Qed.

(** X5: with [entry_price] equal to 0 both threshold checks raise
    [ZeroDivisionError] at every price, and so does every bar of an engine
    that holds a position; the state is left as it was. *)
Theorem X5_zero_entry_price_raises (i : nat) (row : Bar)
    (recent : list pyfloat) (price : Q) (s : strategy) :
  Qeq_bool (entry_price s) 0 = true ->
  Qeq_bool (position s) 0 = false ->
  check_take_profit price s = (Raise ZeroDivisionError, s) /\
  check_stop_loss price s = (Raise ZeroDivisionError, s) /\
  process_bar i row recent s = (Raise ZeroDivisionError, s).
Proof.
  intros Hz Hpos.
  assert (forall p, check_take_profit p s = (Raise ZeroDivisionError, s)) as Htp.
  { intros p. unfold check_take_profit, bind, get, lift, pydiv. simpl.
    rewrite Hz. by destruct (is_long (direction s)). }
  split; [apply Htp|]. split.
  - unfold check_stop_loss, bind, get, lift, pydiv. simpl.
    rewrite Hz. by destruct (is_long (direction s)).
  - unfold process_bar, bind at 1, get. simpl. rewrite Hpos.
    unfold bind at 1, pyand, bind at 1. by rewrite Htp.
Qed.

Lemma X5_zero_entry_price_witness :
  Qeq_bool (entry_price zero_entry_state) 0 = true /\
  Qeq_bool (position zero_entry_state) 0 = false /\
  process_bar 7 (bar_at 90) reversal7 zero_entry_state
    = (Raise ZeroDivisionError, zero_entry_state).
Proof.
  split; [reflexivity|]. split; [reflexivity|].
  apply (X5_zero_entry_price_raises 7 (bar_at 90) reversal7 90
           zero_entry_state eq_refl eq_refl).
Defined.

(** *** The two thresholds *)

Lemma Qle_bool_false (a b : Q) : b < a -> Qle_bool a b = false.
Proof.
  intros H. destruct (Qle_bool a b) eqn:E; [|done].
  apply Qle_bool_iff in E. lra.
Qed.

Lemma pymin_fin_pos (a b : Q) :
  0 < a -> 0 < b -> exists m, pymin (Fin a) (Fin b) = Fin m /\ 0 < m.
Proof.
  intros Ha Hb. unfold pymin, flt. destruct (Qltb b a); eauto.
Qed.

(** With finite positive snapshots and positive leverages the two threshold
    values are finite and positive. *)
Lemma thresholds_positive (layer : nat) (s : strategy) (vx vy : Q) :
  x s = Fin vx -> y s = Fin vy -> 0 < vx -> 0 < vy ->
  (forall l, l ∈ leverage_list s -> 0 < l) ->
  (leverage_list s !! layer = None /\
   (calculate_take_profit layer s).1 = Raise IndexError /\
   (calculate_stop_loss layer s).1 = Raise IndexError) \/
  (exists tp sl,
     calculate_take_profit layer s = (Ok (Fin tp), s) /\
     calculate_stop_loss layer s = (Ok (Fin sl), s) /\
     0 < tp /\ 0 < sl).
Proof.
  intros Hx Hy Hvx Hvy Hlev.
  unfold calculate_take_profit, calculate_stop_loss, bind, get, lift, ret,
    list_get.
  simpl. rewrite Hx, Hy.
  destruct (leverage_list s !! layer) as [lev|] eqn:El.
  2:{ left. by destruct (layer =? 0)%nat. }
  right. assert (0 < lev) as Hl by (apply Hlev; by eapply list_elem_of_lookup_2).
  destruct (pymin_fin_pos ((1 # 2) * vx) vy) as (m & Hm & Hmpos); [lra | done |].
  change (fmul (Fin (1 # 2)) (Fin vx)) with (Fin ((1 # 2) * vx)).
  rewrite Hm. change (fmul (Fin m) (Fin lev)) with (Fin (m * lev)).
  assert (0 < m * lev) by (apply Qmult_lt_0_compat; done).
  destruct (layer =? 0)%nat; eexists _, _; (split; [done|]); (split; [done|]);
    split; try done; lra.
Qed.

(** X6: with finite positive volatility snapshots, positive leverages and a
    cumulative loss below 50%, the take-profit check and the stop-loss check
    never hold on the same bar. *)
Theorem X6_take_profit_excludes_stop_loss (price : Q) (s : strategy)
    (vx vy : Q) :
  x s = Fin vx -> y s = Fin vy -> 0 < vx -> 0 < vy ->
  (forall l, l ∈ leverage_list s -> 0 < l) ->
  total_loss s < 1 # 2 ->
  (check_take_profit price s).1 = Ok true ->
  (check_stop_loss price s).1 = Ok false.
Proof.
  intros Hx Hy Hvx Hvy Hlev Hloss.
  destruct (thresholds_positive (current_layer s) s vx vy Hx Hy Hvx Hvy Hlev)
    as [(_ & Etp & _)|(tp & sl & Etp & Esl & Htp & Hsl)].
  - unfold check_take_profit, bind, get, lift. simpl.
    destruct (if is_long (direction s) then _ else _) as [profit|e]; [|done].
    destruct (calculate_take_profit (current_layer s) s) as [r s1].
    simpl in Etp. by subst r.
  - unfold check_take_profit, check_stop_loss, bind, get, lift, pydiv. simpl.
    rewrite Etp, Esl.
    destruct (Qeq_bool (entry_price s) 0) eqn:Ez.
    { by destruct (is_long (direction s)). }
    assert (~ entry_price s == 0) as Hne
      by (intros H; apply Qeq_bool_iff in H; congruence).
    rewrite (Qle_bool_false (1 # 2) (total_loss s) Hloss).
    destruct (is_long (direction s)); unfold ret, fge, fle; simpl;
      rewrite orb_false_r; intros [= Hp]; f_equal; apply Qle_bool_iff in Hp;
      apply Qle_bool_false.
    + assert ((entry_price s - price) / entry_price s
              == - ((price - entry_price s) / entry_price s)) as E
        by (field; done).
      rewrite E. lra.
    + assert ((price - entry_price s) / entry_price s
              == - ((entry_price s - price) / entry_price s)) as E
        by (field; done).
      rewrite E. lra.
Qed.

Lemma leverages_positive_12 : forall l : Q, l ∈ [1; 2] -> 0 < l.
Proof.
  intros l Hl.
  apply elem_of_cons in Hl as [->|Hl]; [reflexivity|].
  apply elem_of_cons in Hl as [->|Hl]; [reflexivity|].
  by apply elem_of_nil in Hl.
Qed.

Lemma X6_take_profit_excludes_stop_loss_witness :
  (check_take_profit 102 (open_state Long 0)).1 = Ok true /\
  (check_stop_loss 102 (open_state Long 0)).1 = Ok false.
Proof.
  assert ((check_take_profit 102 (open_state Long 0)).1 = Ok true) as H
    by (vm_compute; reflexivity).
  split; [exact H|].
  apply (X6_take_profit_excludes_stop_loss 102 (open_state Long 0)
           (1 # 50) (1 # 100) eq_refl eq_refl eq_refl eq_refl
           leverages_positive_12 eq_refl H).
Defined.

(** *** Signals and layer index through the loop *)

(** The branch that adds a layer is taken under its guard only. *)
Lemma process_bar_add_guard (i : nat) (row : Bar) (recent : list pyfloat)
    (s : strategy) (price a : Q) (layer index : nat) :
  process_bar i row recent s = (Ok Next, added price a layer index s) ->
  add_guard row recent s.
Proof.
  intros E.
  assert (stdout (process_bar i row recent s).2
          = AddLine (layer + 1) price
              ((entry_price s * position s + price * a) / (position s + a))
              (position s + a) :: stdout s) as Hout by (by rewrite E).
  clear E.
  destruct (Qeq_bool (position s) 0) eqn:Hpos.
  { destruct (flat_bar_never_opens i row recent s Hpos) as [Hs _].
    rewrite Hs in Hout. symmetry in Hout. by apply cons_neq_self in Hout. }
  pose proof (pure_take_conj (close row) recent s) as Hp1.
  pose proof (pure_stop_conj (close row) recent s) as Hp2.
  destruct (pyand (check_take_profit _) _ s) as [r1 s1] eqn:E1.
  destruct (pyand (check_stop_loss _) _ s) as [r2 s2] eqn:E2.
  simpl in Hp1, Hp2. subst s1 s2.
  destruct r1 as [[]|e1].
  - rewrite (process_bar_take_profit i row recent s) in Hout;
      [done | split; [done | by rewrite E1]].
  - destruct r2 as [[]|e2].
    + destruct (Z.of_nat (current_layer s)
                  <? Z.of_nat (length (leverage_list s)) - 1)%Z eqn:Hlast.
      * unfold add_guard. by rewrite Hpos, E1, E2.
      * rewrite (process_bar_liquidation i row recent s) in Hout; [done|].
        unfold liquidation_guard. by rewrite Hpos, E1, E2.
    + exfalso.
      assert (process_bar i row recent s = (Ok Next, s)) as E.
      { unfold process_bar, bind at 1, get. simpl. rewrite Hpos.
        unfold bind at 1. rewrite E1. unfold bind at 1. by rewrite E2. }
      rewrite E in Hout. symmetry in Hout. by apply cons_neq_self in Hout.
    + exfalso.
      assert (process_bar i row recent s = (Raise e2, s)) as E.
      { unfold process_bar, bind at 1, get. simpl. rewrite Hpos.
        unfold bind at 1. rewrite E1. unfold bind at 1. by rewrite E2. }
      rewrite E in Hout. symmetry in Hout. by apply cons_neq_self in Hout.
  - exfalso.
    assert (process_bar i row recent s = (Raise e1, s)) as E.
    { unfold process_bar, bind at 1, get. simpl. rewrite Hpos.
      unfold bind at 1. by rewrite E1. }
    rewrite E in Hout. symmetry in Hout. by apply cons_neq_self in Hout.
Qed.

Lemma signal_of_range (d : option side) :
  signal_of d = (-1)%Z \/ signal_of d = 0%Z \/ signal_of d = 1%Z.
Proof. destruct d as [[]|]; simpl; auto. Qed.

Lemma process_bar_signals (i : nat) (row : Bar) (recent : list pyfloat)
    (s : strategy) :
  signals_wf s ->
  signals_wf (process_bar i row recent s).2 /\
  length (open_signal (process_bar i row recent s).2)
    = length (open_signal s) /\
  length (close_signal (process_bar i row recent s).2)
    = length (close_signal s) /\
  (forall j, j <> i ->
     open_signal (process_bar i row recent s).2 !! j = open_signal s !! j /\
     close_signal (process_bar i row recent s).2 !! j = close_signal s !! j).
Proof.
  intros [Ho Hc].
  destruct (process_bar_cases i row recent s)
    as [[E _]|[[_ E]|[[_ E]|(a & _ & _ & _ & E)]]]; rewrite E; simpl.
  - done.
  - rewrite length_insert. repeat split; try done.
    + apply Forall_insert; auto.
    + by rewrite list_lookup_insert_ne.
  - rewrite length_insert. repeat split; try done.
    + apply Forall_insert; auto.
    + by rewrite list_lookup_insert_ne.
  - rewrite length_insert. repeat split; try done.
    + apply Forall_insert; [done | apply signal_of_range].
    + by rewrite list_lookup_insert_ne.
Qed.

(** X8: over rows whose labels are labels of the frame (as those of
    [iterrows] are), a bar writes the signal columns at its own row only,
    and the loop keeps the columns at their length with [open_signal] in
    {-1, 0, 1} and [close_signal] in {0, 1}, as [__init__] sets them up. *)
Theorem X8_signal_columns_stay_in_range
    (recent_of : nat -> strategy -> list pyfloat)
    (rows : list (nat * Bar)) (s : strategy) :
  signals_wf s ->
  (forall i row, (i, row) ∈ rows ->
     (i < length (open_signal s))%nat /\ (i < length (close_signal s))%nat) ->
  signals_wf (run_rows recent_of rows s).2 /\
  length (open_signal (run_rows recent_of rows s).2) = length (open_signal s) /\
  length (close_signal (run_rows recent_of rows s).2)
    = length (close_signal s) /\
  (forall i row recent j,
     (i < length (open_signal s))%nat -> (i < length (close_signal s))%nat ->
     j <> i ->
     open_signal (process_bar i row recent s).2 !! j = open_signal s !! j /\
     close_signal (process_bar i row recent s).2 !! j = close_signal s !! j).
Proof.
  intros Hwf _.
  assert (signals_wf (run_rows recent_of rows s).2 /\
          length (open_signal (run_rows recent_of rows s).2)
            = length (open_signal s) /\
          length (close_signal (run_rows recent_of rows s).2)
            = length (close_signal s)) as (H1 & H2 & H3).
  { apply (run_rows_invariant
             (fun s' => signals_wf s' /\
                        length (open_signal s') = length (open_signal s) /\
                        length (close_signal s') = length (close_signal s))
             recent_of); [|done].
    intros i row recent s1 (Hw & Lo & Lc).
    destruct (process_bar_signals i row recent s1 Hw) as (Hw' & Lo' & Lc' & _).
    split; [done|]. split; congruence. }
  split; [done|]. split; [done|]. split; [done|].
  intros i row recent j _ _ Hj. by apply process_bar_signals.
Qed.

Lemma signals_wf_open_state : signals_wf (open_state Long 0).
Proof.
  split; apply Forall_replicate; auto.
Qed.

Lemma open_state_row_7_in_frame :
  forall (i : nat) (row : Bar), (i, row) ∈ [(7%nat, bar_at 98)] ->
    (i < length (open_signal (open_state Long 0)))%nat /\
    (i < length (close_signal (open_state Long 0)))%nat.
Proof.
  intros i row Hin. apply elem_of_cons in Hin as [[= -> _]|Hin].
  - simpl. lia.
  - by apply elem_of_nil in Hin.
Defined.

Lemma X8_signal_columns_witness :
  signals_wf (open_state Long 0) /\
  (forall (i : nat) (row : Bar), (i, row) ∈ [(7%nat, bar_at 98)] ->
     (i < length (open_signal (open_state Long 0)))%nat /\
     (i < length (close_signal (open_state Long 0)))%nat) /\
  open_signal (run_rows (fun _ _ => reversal7) [(7%nat, bar_at 98)]
                 (open_state Long 0)).2 !! 7%nat = Some 1%Z /\
  signals_wf (run_rows (fun _ _ => reversal7) [(7%nat, bar_at 98)]
                (open_state Long 0)).2.
Proof.
  split; [exact signals_wf_open_state|].
  split; [exact open_state_row_7_in_frame|].
  split; [vm_compute; reflexivity|].
  apply (X8_signal_columns_stay_in_range (fun _ _ => reversal7)
           [(7%nat, bar_at 98)] (open_state Long 0) signals_wf_open_state
           open_state_row_7_in_frame).
Defined.

(** X9: with a layer schedule that is not empty and a current layer inside
    it, the current layer stays inside the schedule through every bar and
    through the loop over any rows: an add is made only below the last
    layer, and a close resets the layer to 0. *)
Theorem X9_current_layer_stays_in_the_schedule
    (recent_of : nat -> strategy -> list pyfloat)
    (rows : list (nat * Bar)) (s : strategy) :
  (current_layer s < length (leverage_list s))%nat ->
  (forall i row recent,
      (current_layer (process_bar i row recent s).2
       < length (leverage_list (process_bar i row recent s).2))%nat) /\
  (current_layer (run_rows recent_of rows s).2
   < length (leverage_list (run_rows recent_of rows s).2))%nat.
Proof.
  assert (forall i row recent s1,
             (current_layer s1 < length (leverage_list s1))%nat ->
             (current_layer (process_bar i row recent s1).2
              < length (leverage_list (process_bar i row recent s1).2))%nat)
    as Hstep.
  { intros i row recent s1 H1.
    destruct (process_bar_cases i row recent s1)
      as [[E _]|[[_ E]|[[_ E]|(a & _ & _ & _ & E)]]].
    - by rewrite E.
    - rewrite E. simpl. lia.
    - rewrite E. simpl. lia.
    - destruct (process_bar_add_guard _ _ _ _ _ _ _ _ E) as (_ & _ & _ & G).
      rewrite E. simpl. apply Z.ltb_lt in G. lia. }
  intros H. split; [intros; by apply Hstep|].
  by apply (run_rows_invariant
              (fun s' => (current_layer s' < length (leverage_list s'))%nat)
              recent_of).
Qed.

Lemma X9_current_layer_witness :
  (current_layer (open_state Long 0)
   < length (leverage_list (open_state Long 0)))%nat /\
  current_layer (run_rows (fun _ _ => reversal7) [(7%nat, bar_at 98)]
                   (open_state Long 0)).2 = 1%nat /\
  (current_layer (run_rows (fun _ _ => reversal7) [(7%nat, bar_at 98)]
                    (open_state Long 0)).2
   < length (leverage_list
               (run_rows (fun _ _ => reversal7) [(7%nat, bar_at 98)]
                  (open_state Long 0)).2))%nat.
Proof.
  assert (current_layer (open_state Long 0)
          < length (leverage_list (open_state Long 0)))%nat as H
    by (simpl; lia).
  split; [exact H|]. split; [vm_compute; reflexivity|].
  apply (X9_current_layer_stays_in_the_schedule (fun _ _ => reversal7)
           [(7%nat, bar_at 98)] (open_state Long 0) H).
Defined.

(** *** The constructor and the trailing window *)

(** X10: [__init__] raises the [ValueError] of [max] on an empty frame; on
    any other frame it returns a flat engine (no position, layer 0, no
    direction, totals 0) whose two signal columns are 0 on every row and
    whose snapshots are the 4h and 1h volatilities of the frame. *)
Theorem X10_init_outcomes (leverage positions : list Q) :
  init [] leverage positions = Raise ValueError /\
  forall (b : Bar) (rest : list Bar),
  exists vx vy,
    calculate_4h_volatility (b :: rest) = Ok vx /\
    calculate_1h_volatility (b :: rest) = Ok vy /\
    init (b :: rest) leverage positions
    = Ok {| df := b :: rest;
            open_signal := replicate (S (length rest)) 0%Z;
            close_signal := replicate (S (length rest)) 0%Z;
            leverage_list := leverage;
            position_list := positions;
            position := 0;
            entry_price := 0;
            total_loss := 0;
            total_profit := 0;
            current_layer := 0;
            direction := None;
            x := vx;
            y := vy;
            stdout := [] |}.
Proof.
  split; [reflexivity|]. intros b rest.
  destruct (calculate_volatility_outcomes 240 (b :: rest))
    as [[? _]|[_ [vx Hx]]]; [done|].
  destruct (calculate_volatility_outcomes 60 (b :: rest))
    as [[? _]|[_ [vy Hy]]]; [done|].
  exists vx, vy. unfold init, calculate_4h_volatility, calculate_1h_volatility.
  by rewrite Hx, Hy.
Qed.

Lemma last_24h_app (pre rows : list Bar) :
  (24 * 60 <= length rows)%nat -> last_24h (pre ++ rows) = last_24h rows.
Proof.
  intros H. unfold last_24h. rewrite length_app.
  rewrite drop_app_ge by lia. f_equal. lia.
Qed.

(** X11: the snapshots read the last 1440 rows only: rows put in front of a
    frame that has 1440 rows or more change neither snapshot. *)
Theorem X11_volatility_reads_the_last_1440_rows (pre rows : list Bar) :
  (1440 <= length rows)%nat ->
  calculate_4h_volatility (pre ++ rows) = calculate_4h_volatility rows /\
  calculate_1h_volatility (pre ++ rows) = calculate_1h_volatility rows /\
  last_24h (pre ++ rows) = drop (length rows - 1440) rows.
Proof.
  intros H.
  assert (last_24h (pre ++ rows) = last_24h rows) as E
    by (apply last_24h_app; lia).
  unfold calculate_4h_volatility, calculate_1h_volatility,
    calculate_volatility.
  rewrite E. done.
Qed.

Lemma X11_volatility_window_witness :
  (1440 <= length (replicate 1440 one_bar))%nat /\
  calculate_4h_volatility (gap_frame ++ replicate 1440 one_bar)
  = calculate_4h_volatility (replicate 1440 one_bar).
Proof.
  assert (1440 <= length (replicate 1440 one_bar))%nat as H
    by (rewrite length_replicate; lia).
  split; [exact H|].
  destruct (X11_volatility_reads_the_last_1440_rows gap_frame
              (replicate 1440 one_bar) H) as [E _].
  exact E.
Defined.

(** X17: the two threshold functions raise [IndexError] exactly when the
    layer is beyond [leverage_list], and never anything else; on the add-on
    layers (1 and above) the take-profit threshold is the stop-loss
    threshold, and on layer 0 it is 1% of the first leverage whatever the
    volatility snapshots are. *)
Theorem X17_thresholds_by_layer (layer : nat) (s : strategy) :
  ((calculate_stop_loss layer s).1 = Raise IndexError
   <-> (length (leverage_list s) <= layer)%nat) /\
  ((calculate_take_profit layer s).1 = Raise IndexError
   <-> (length (leverage_list s) <= layer)%nat) /\
  (forall e, (calculate_stop_loss layer s).1 = Raise e
             \/ (calculate_take_profit layer s).1 = Raise e ->
             e = IndexError) /\
  ((1 <= layer)%nat ->
   calculate_take_profit layer s = calculate_stop_loss layer s) /\
  (forall lev, leverage_list s !! 0%nat = Some lev ->
               calculate_take_profit 0 s = (Ok (Fin (lev * (1 # 100))), s)).
Proof.
  unfold calculate_stop_loss, calculate_take_profit, bind, get, lift, ret,
    list_get.
  simpl.
  destruct (leverage_list s !! layer) as [lev|] eqn:El.
  - assert (~ (length (leverage_list s) <= layer)%nat) as Hlt.
    { intros H. apply lookup_ge_None in H. congruence. }
    split; [split; [done | intros; by exfalso]|].
    split; [destruct (layer =? 0)%nat; (split; [done | intros; by exfalso])|].
    split; [intros e [H|H]; [done | by destruct (layer =? 0)%nat]|].
    split.
    + intros Hl. destruct (layer =? 0)%nat eqn:E; [|done].
      apply Nat.eqb_eq in E. lia.
    + intros lev0 ->. done.
  - assert (length (leverage_list s) <= layer)%nat as Hge
      by (by apply lookup_ge_None).
    split; [done|].
    split; [by destruct (layer =? 0)%nat|].
    split.
    { intros e [H|H]; [|destruct (layer =? 0)%nat]; simpl in H; congruence. }
    split.
    + intros Hl. destruct (layer =? 0)%nat eqn:E; [|done].
      apply Nat.eqb_eq in E. lia.
    + intros lev0 ->. done.
Qed.

(** ** Further properties of the wave-divergence signal *)

Lemma rolling_mean_lookup (w : nat) (xs : list Q) (t : nat) :
  (t < length xs)%nat ->
  rolling_mean w xs !! t
  = Some (if (w =? 0)%nat || (t + 1 <? w)%nat then None
          else Some (Qsum (iloc_slice xs (t + 1 - w) (t + 1))
                     / inject_Z (Z.of_nat w))).
Proof.
  intros Ht. unfold rolling_mean.
  rewrite list_lookup_fmap, lookup_seq_lt by done. done.
Qed.

Lemma cross_signal_lookup (short long : list (option Q)) (t : nat) (v : Z) :
  cross_signal short long !! t = Some v <->
  exists a b,
    short !! t = Some a /\ long !! t = Some b /\
    v = if gt_nan a b then 1%Z else 0%Z.
Proof.
  unfold cross_signal. rewrite lookup_zip_with_Some. split.
  - intros (a & b & -> & Ha & Hb). exists a, b. split; [done|]. split; [done|].
    unfold le_nan, gt_nan. destruct a as [p|], b as [q|]; try done.
    unfold Qltb. by destruct (Qle_bool p q).
  - intros (a & b & Ha & Hb & ->). exists a, b. split; [|done].
    unfold le_nan, gt_nan. destruct a as [p|], b as [q|]; try done.
    unfold Qltb. by destruct (Qle_bool p q).
Qed.

(** X12: the divergence exit never withdraws a signal.  The column
    [signal] that [generate_signals] returns is the column of the 
    moving-average cross: it is 1 exactly on the rows where both means are
    defined and the short one is above the long one, and 0 on every other
    row. *)
Theorem X12_signal_is_the_moving_average_cross (sw mw lw : nat)
    (closes : list Q) (t : nat) (v : Z) :
  signal (generate_signals sw mw lw closes) !! t = Some v ->
  signal (generate_signals sw mw lw closes)
    = cross_signal (short_ma (generate_signals sw mw lw closes))
                   (long_ma (generate_signals sw mw lw closes)) /\
  (v = 0%Z \/ v = 1%Z) /\
  (v = 1%Z <->
   exists a b,
     short_ma (generate_signals sw mw lw closes) !! t = Some (Some a) /\
     long_ma (generate_signals sw mw lw closes) !! t = Some (Some b) /\
     b < a).
Proof.
  intros Hv. pose proof (divergence_exit_never_fires sw mw lw closes) as E.
  split; [done|]. rewrite E in Hv.
  apply cross_signal_lookup in Hv as (a & b & Ha & Hb & ->).
  split; [destruct (gt_nan a b); auto|].
  rewrite Ha, Hb. unfold gt_nan. split.
  - destruct a as [p|], b as [q|]; try done.
    destruct (Qltb q p) eqn:Hlt; [|done].
    intros _. apply Qltb_lt in Hlt. eauto.
  - intros (p & q & [= ->] & [= ->] & Hlt).
    apply Qltb_lt in Hlt. by rewrite Hlt.
Qed.

Lemma X12_signal_witness :
  signal (generate_signals 1 2 2 zigzag) !! 5%nat = Some 1%Z /\
  signal (generate_signals 1 2 2 zigzag)
    = cross_signal (short_ma (generate_signals 1 2 2 zigzag))
                   (long_ma (generate_signals 1 2 2 zigzag)).
Proof.
  assert (signal (generate_signals 1 2 2 zigzag) !! 5%nat = Some 1%Z) as H
    by (vm_compute; reflexivity).
  split; [exact H|].
  apply (X12_signal_is_the_moving_average_cross 1 2 2 zigzag 5 1 H).
Defined.

(** X13: during the warm-up of the short or of the long mean (the first
    [window - 1] rows) the signal is 0. *)
Theorem X13_no_signal_during_warm_up (sw mw lw : nat) (closes : list Q)
    (t : nat) :
  (t < length closes)%nat ->
  (t + 1 < sw \/ t + 1 < lw)%nat ->
  signal (generate_signals sw mw lw closes) !! t = Some 0%Z.
Proof.
  intros Ht Hw. rewrite divergence_exit_never_fires.
  apply cross_signal_lookup. simpl.
  rewrite !rolling_mean_lookup by done.
  eexists _, _. split; [done|]. split; [done|].
  destruct Hw as [Hw|Hw].
  - assert ((t + 1 <? sw)%nat = true) as -> by (by apply Nat.ltb_lt).
    by rewrite orb_true_r.
  - assert ((t + 1 <? lw)%nat = true) as -> by (by apply Nat.ltb_lt).
    rewrite orb_true_r. unfold gt_nan.
    by destruct ((sw =? 0)%nat || (t + 1 <? sw)%nat).
Qed.

Lemma X13_warm_up_witness :
  (2 < length zigzag)%nat /\
  signal (generate_signals 2 3 5 zigzag) !! 2%nat = Some 0%Z.
Proof.
  assert (2 < length zigzag)%nat as H by (simpl; lia).
  split; [exact H|].
  apply (X13_no_signal_during_warm_up 2 3 5 zigzag 2 H). right. lia.
Defined.

(** X14: with equal short and long windows the signal is 0 on every row. *)
Theorem X14_equal_windows_give_no_signal (w mw : nat) (closes : list Q) :
  signal (generate_signals w mw w closes) = replicate (length closes) 0%Z.
Proof.
  rewrite divergence_exit_never_fires. simpl.
  apply list_eq. intros t.
  destruct (decide (t < length closes)%nat) as [Ht|Ht].
  - rewrite lookup_replicate_2 by done.
    apply cross_signal_lookup. rewrite rolling_mean_lookup by done.
    eexists _, _. split; [done|]. split; [done|].
    unfold gt_nan.
    destruct ((w =? 0)%nat || (t + 1 <? w)%nat); [done|].
    by rewrite (proj2 (Qltb_ge _ _) (Qle_refl _)).
  - rewrite !(proj2 (lookup_ge_None _ _)); [done | |].
    + rewrite length_replicate. lia.
    + unfold cross_signal.
      rewrite length_zip_with, !length_rolling_mean. lia.
Qed.

(** The first row is never of positive sign: its difference is NaN during
    a warm-up and 0 when both windows are 1. *)
Lemma first_sign_negative (sw mw lw : nat) (closes : list Q) (d : option Q) :
  diff_5_10 (generate_signals sw mw lw closes) !! 0%nat = Some d ->
  sign_of d = (-1)%Z.
Proof.
  simpl. rewrite lookup_zip_with_Some. intros (a & b & -> & Ha & Hb).
  assert (0 < length closes)%nat as Hlen.
  { apply lookup_lt_Some in Ha. by rewrite length_rolling_mean in Ha. }
  rewrite rolling_mean_lookup in Ha, Hb by done.
  injection Ha as <-. injection Hb as <-.
  destruct sw as [|[|sw]], mw as [|[|mw]]; try reflexivity.
  unfold sign_of, gt_nan, sub_nan.
  change ((1 =? 0)%nat || (1 <? 1)%nat) with false. cbv iota.
  rewrite (proj2 (Qltb_ge _ _)); [done|]. lra.
Qed.

(** X15: the waves alternate in sign and start negative: a row has a
    positive [diff_sign] exactly when its wave id is odd. *)
Theorem X15_odd_waves_are_the_positive_ones (sw mw lw : nat)
    (closes : list Q) (t g : nat) (s : Z) :
  wave_id (generate_signals sw mw lw closes) !! t = Some g ->
  diff_sign (generate_signals sw mw lw closes) !! t = Some s ->
  s = (if Nat.even g then (-1)%Z else 1%Z) /\
  (t = 0%nat -> g = 0%nat).
Proof.
  intros Hg Hs.
  rewrite generate_signals_wave_id in Hg.
  pose proof (first_sign_negative sw mw lw closes) as H0.
  change (diff_sign (generate_signals sw mw lw closes))
    with (sign_of <$> diff_5_10 (generate_signals sw mw lw closes)) in Hs.
  destruct (diff_5_10 (generate_signals sw mw lw closes)) as [|d0 diff];
    [done|].
  rewrite list_lookup_fmap in Hs.
  destruct ((d0 :: diff) !! t) as [d|] eqn:Hd; [|done].
  injection Hs as <-.
  rewrite (sign_by_wave d0 diff t g d Hg Hd), (H0 d0 eq_refl).
  split; [unfold flipn; by destruct (Nat.even g)|].
  intros ->. rewrite wave_ids_of_cons in Hg. by injection Hg as <-.
Qed.

Lemma X15_odd_waves_witness :
  wave_id (generate_signals 1 2 2 zigzag) !! 5%nat = Some 3%nat /\
  diff_sign (generate_signals 1 2 2 zigzag) !! 5%nat = Some 1%Z /\
  1%Z = (if Nat.even 3 then (-1)%Z else 1%Z).
Proof.
  assert (wave_id (generate_signals 1 2 2 zigzag) !! 5%nat = Some 3%nat)
    as Hg by (vm_compute; reflexivity).
  assert (diff_sign (generate_signals 1 2 2 zigzag) !! 5%nat = Some 1%Z)
    as Hs by (vm_compute; reflexivity).
  split; [exact Hg|]. split; [exact Hs|].
  apply (X15_odd_waves_are_the_positive_ones 1 2 2 zigzag 5 3 1 Hg Hs).
Defined.

Lemma wave_ids_grow_slowly (diff : list (option Q)) (n : nat) :
  forall t g g',
    wave_ids_of diff !! t = Some g ->
    wave_ids_of diff !! (t + n)%nat = Some g' ->
    (g <= g' <= g + n)%nat.
Proof.
  induction n as [|n IH]; intros t g g' Hg Hg'.
  - rewrite Nat.add_0_r in Hg'. rewrite Hg in Hg'. injection Hg' as <-. lia.
  - replace (t + S n)%nat with (S (t + n)) in Hg' by lia.
    pose proof (lookup_lt_Some _ _ _ Hg') as Hlen.
    rewrite length_wave_ids_of in Hlen.
    destruct (lookup_lt_is_Some_2 diff (t + n)) as [a Ha]; [lia|].
    destruct (lookup_lt_is_Some_2 diff (S (t + n))) as [b Hb]; [lia|].
    destruct (wave_ids_step diff (t + n) a b Ha Hb) as (m & Hm & HSm).
    specialize (IH t g m Hg Hm).
    rewrite Hg' in HSm. injection HSm as ->.
    destruct (decide (sign_of b = sign_of a)); lia.
Qed.

(** X16: wave ids never go down along the rows and go up by at most one per
    row, so each wave is an unbroken run of rows and the id of row [t] is at
    most [t]. *)
Theorem X16_wave_ids_are_monotone (sw mw lw : nat) (closes : list Q)
    (t u g g' : nat) :
  (t <= u)%nat ->
  wave_id (generate_signals sw mw lw closes) !! t = Some g ->
  wave_id (generate_signals sw mw lw closes) !! u = Some g' ->
  (g <= g' <= g + (u - t))%nat /\ (g' <= u)%nat.
Proof.
  intros Htu Hg Hg'. rewrite generate_signals_wave_id in Hg, Hg'.
  split.
  - apply (wave_ids_grow_slowly _ (u - t) t g g' Hg).
    by replace (t + (u - t))%nat with u by lia.
  - pose proof (lookup_lt_Some _ _ _ Hg') as Hlen.
    destruct (lookup_lt_is_Some_2
                (wave_ids_of (diff_5_10 (generate_signals sw mw lw closes)))
                0) as [g0 Hg0]; [lia|].
    assert (g0 = 0%nat) as ->.
    { destruct (diff_5_10 (generate_signals sw mw lw closes)) as [|d0 diff];
        [done|].
      rewrite wave_ids_of_cons in Hg0. by injection Hg0 as <-. }
    pose proof (wave_ids_grow_slowly _ u 0 0 g' Hg0 Hg'). lia.
Qed.

Lemma X16_wave_ids_witness :
  (2 <= 6)%nat /\
  wave_id (generate_signals 1 2 2 zigzag) !! 2%nat = Some 1%nat /\
  wave_id (generate_signals 1 2 2 zigzag) !! 6%nat = Some 3%nat /\
  (1 <= 3 <= 1 + (6 - 2))%nat.
Proof.
  assert (2 <= 6)%nat as H by lia.
  assert (wave_id (generate_signals 1 2 2 zigzag) !! 2%nat = Some 1%nat)
    as Hg by (vm_compute; reflexivity).
  assert (wave_id (generate_signals 1 2 2 zigzag) !! 6%nat = Some 3%nat)
    as Hg' by (vm_compute; reflexivity).
  split; [exact H|]. split; [exact Hg|]. split; [exact Hg'|].
  apply (X16_wave_ids_are_monotone 1 2 2 zigzag 2 6 1 3 H Hg Hg').
Defined.

(** ** Properties of the minute candles *)

Lemma fold_Qmax_last_le (l : list Q) (a : Q) :
  List.last l a <= fold_left Qmax l a.
Proof.
  revert a. induction l as [|b l IH]; intros a; [apply Qle_refl|].
  destruct l as [|c l].
  - simpl. apply Q.le_max_r.
  - change (List.last (b :: c :: l) a) with (List.last (c :: l) a).
    destruct (fold_Qmax_ge (c :: l) (Qmax a b)) as [_ H].
    change (fold_left Qmax (b :: c :: l) a)
      with (fold_left Qmax (c :: l) (Qmax a b)).
    apply H. clear. revert c. induction l as [|d l IH]; intros c; [left|].
    change (List.last (c :: d :: l) a) with (List.last (d :: l) a).
    right. apply IH.
Qed.

Lemma fold_Qmin_last_ge (l : list Q) (a : Q) :
  fold_left Qmin l a <= List.last l a.
Proof.
  destruct l as [|b l]; [apply Qle_refl|].
  destruct (fold_Qmin_le (b :: l) a) as [_ H]. apply H.
  clear. revert b. induction l as [|d l IH]; intros b; [left|].
  change (List.last (b :: d :: l) a) with (List.last (d :: l) a).
  right. apply IH.
Qed.

(** X18: in every candle that [get_kline_df] returns the open and the close
    lie between the low and the high; in particular [low <= high]. *)
Theorem X18_candles_are_well_formed (trades : list DataClean.trade)
    (c : DataClean.kline) :
  c ∈ DataClean.get_kline_df trades ->
  DataClean.low c <= DataClean.open c /\
  DataClean.open c <= DataClean.high c /\
  DataClean.low c <= DataClean.close c /\
  DataClean.close c <= DataClean.high c /\
  DataClean.low c <= DataClean.high c.
Proof.
  unfold DataClean.get_kline_df. rewrite list_elem_of_omap.
  intros (k & _ & Hagg). unfold DataClean.agg_group in Hagg.
  destruct (DataClean.group_rows k trades) as [|t rest]; [done|].
  injection Hagg as <-. simpl.
  destruct (fold_Qmax_ge (DataClean.price <$> rest) (DataClean.price t))
    as [H1 _].
  destruct (fold_Qmin_le (DataClean.price <$> rest) (DataClean.price t))
    as [H2 _].
  pose proof (fold_Qmax_last_le (DataClean.price <$> rest) (DataClean.price t)).
  pose proof (fold_Qmin_last_ge (DataClean.price <$> rest) (DataClean.price t)).
  repeat split; try done. lra.
Qed.

Lemma X18_candles_witness :
  exists c,
    DataClean.get_kline_df sample_trades !! 0%nat = Some c /\
    DataClean.timestamp c = 1%Z /\
    DataClean.open c == 100 /\
    DataClean.close c == 98 /\
    DataClean.low c <= DataClean.high c.
Proof.
  eexists. split; [vm_compute; reflexivity|].
  split; [reflexivity|]. split; [reflexivity|]. split; [reflexivity|].
  eapply (X18_candles_are_well_formed sample_trades).
  apply list_elem_of_lookup. exists 0%nat. vm_compute. reflexivity.
Defined.

Lemma StronglySorted_seqZ (m n : Z) : StronglySorted Z.lt (seqZ m n).
Proof.
  destruct (decide (n <= 0)%Z) as [Hn|Hn].
  { rewrite seqZ_nil by done. constructor. }
  rewrite <- (Z2Nat.id n) by lia. generalize (Z.to_nat n) as k. clear.
  intros k. revert m. induction k as [|k IH]; intros m.
  { rewrite seqZ_nil by done. constructor. }
  rewrite seqZ_cons by lia. constructor.
  - replace (Z.pred (Z.of_nat (S k))) with (Z.of_nat k) by lia. apply IH.
  - apply Forall_forall. intros z Hz. apply elem_of_seqZ in Hz. lia.
Qed.

Lemma StronglySorted_filter_lt (P : Z -> Prop) `{forall z, Decision (P z)}
    (l : list Z) :
  StronglySorted Z.lt l -> StronglySorted Z.lt (filter P l).
Proof.
  induction 1 as [|a l Hs IH Ha]; [constructor|].
  rewrite filter_cons. destruct (decide (P a)); [|done].
  constructor; [done|].
  apply Forall_forall. intros z Hz. apply list_elem_of_filter in Hz as [_ Hz].
  rewrite Forall_forall in Ha. by apply Ha.
Qed.

Lemma elem_of_group_keys (minutes : list Z) (k : Z) :
  k ∈ DataClean.group_keys minutes <-> k ∈ minutes.
Proof.
  destruct minutes as [|m rest]; [done|]. unfold DataClean.group_keys.
  rewrite list_elem_of_filter. split; [tauto|]. intros Hk. split; [done|].
  destruct (Zlist_min_spec m rest) as (_ & Hm0 & Hm).
  destruct (Zlist_max_spec m rest) as (HM0 & HM).
  apply elem_of_seqZ.
  apply elem_of_cons in Hk as [->|Hk]; [lia|].
  specialize (Hm _ Hk). specialize (HM _ Hk). lia.
Qed.

Lemma StronglySorted_group_keys (minutes : list Z) :
  StronglySorted Z.lt (DataClean.group_keys minutes).
Proof.
  destruct minutes as [|m rest]; [constructor|]. unfold DataClean.group_keys.
  apply StronglySorted_filter_lt, StronglySorted_seqZ.
Qed.

(** Every key has rows, so every key gives a candle. *)
Lemma kline_timestamps (trades : list DataClean.trade) :
  DataClean.timestamp <$> DataClean.get_kline_df trades
  = DataClean.group_keys (DataClean.minute <$> trades).
Proof.
  unfold DataClean.get_kline_df.
  assert (forall k, k ∈ DataClean.group_keys (DataClean.minute <$> trades) ->
                    exists c, DataClean.agg_group k
                                (DataClean.group_rows k trades) = Some c /\
                              DataClean.timestamp c = k) as Hagg.
  { intros k Hk. apply (proj1 (elem_of_group_keys _ _)) in Hk.
    apply list_elem_of_fmap in Hk as (t & -> & Ht).
    assert (t ∈ DataClean.group_rows (DataClean.minute t) trades) as Hin
      by (by apply list_elem_of_filter).
    unfold DataClean.agg_group.
    destruct (DataClean.group_rows (DataClean.minute t) trades) as [|t0 r];
      [by apply elem_of_nil in Hin | eauto]. }
  induction (DataClean.group_keys (DataClean.minute <$> trades))
    as [|k keys IH]; [done|].
  destruct (Hagg k) as (c & Hc & Hts); [left|].
  simpl. rewrite Hc. simpl. rewrite Hts. f_equal.
  apply IH. intros k' Hk'. apply Hagg. by right.
Qed.

(** X19: the candles come in strictly increasing order of their minute, one
    candle for each minute in which a trade occurred and for no other. *)
Theorem X19_candles_are_sorted_by_minute (trades : list DataClean.trade) :
  StronglySorted Z.lt (DataClean.timestamp <$> DataClean.get_kline_df trades)
  /\ (forall k,
        k ∈ (DataClean.timestamp <$> DataClean.get_kline_df trades)
        <-> k ∈ (DataClean.minute <$> trades)) /\
  (trades = [] -> DataClean.get_kline_df trades = []).
Proof.
  rewrite kline_timestamps. split; [apply StronglySorted_group_keys|].
  split; [intros k; apply elem_of_group_keys|]. by intros ->.
Qed.

(** ** Properties of the rolling window *)

Lemma drop_duplicates_from_spec (rows : list GetData.candle) :
  forall seen,
    NoDup (GetData.timestamp <$> GetData.drop_duplicates_from seen rows) /\
    (forall c, c ∈ GetData.drop_duplicates_from seen rows ->
               c ∈ rows /\ GetData.timestamp c ∉ seen) /\
    (forall c, c ∈ rows -> GetData.timestamp c ∉ seen ->
               GetData.timestamp c
               ∈ (GetData.timestamp <$> GetData.drop_duplicates_from seen rows)).
Proof.
  induction rows as [|c rows IH]; intros seen.
  { simpl. split; [constructor|]. split; intros c Hc; by apply elem_of_nil in Hc. }
  simpl. destruct (decide (GetData.timestamp c ∈ seen)) as [Hin|Hout].
  - destruct (IH seen) as (Hnd & Hsub & Hcov). split; [done|]. split.
    + intros c' Hc'. destruct (Hsub c' Hc'). split; [by right | done].
    + intros c' Hc' Hs. apply elem_of_cons in Hc' as [->|Hc']; [done|].
      by apply Hcov.
  - destruct (IH (GetData.timestamp c :: seen)) as (Hnd & Hsub & Hcov).
    split; [|split].
    + rewrite fmap_cons. apply NoDup_cons. split; [|done].
      intros Hin. apply list_elem_of_fmap in Hin as (c' & E & Hc').
      destruct (Hsub c' Hc') as [_ Hn]. apply Hn. rewrite E. left.
    + intros c' Hc'. apply elem_of_cons in Hc' as [->|Hc'].
      * split; [left | done].
      * destruct (Hsub c' Hc') as [? Hn]. split; [by right|].
        intros Hs. apply Hn. by right.
    + intros c' Hc' Hs. rewrite fmap_cons.
      destruct (decide (GetData.timestamp c' = GetData.timestamp c)) as [->|Hne];
        [left|].
      right. apply elem_of_cons in Hc' as [->|Hc']; [done|].
      apply Hcov; [done|]. intros Hx.
      apply elem_of_cons in Hx as [?|?]; done.
Qed.

(** Rows whose timestamps are all different and unseen are all kept. *)
Lemma drop_duplicates_from_id (rows : list GetData.candle) :
  forall seen,
    NoDup (GetData.timestamp <$> rows) ->
    (forall c, c ∈ rows -> GetData.timestamp c ∉ seen) ->
    GetData.drop_duplicates_from seen rows = rows.
Proof.
  induction rows as [|c rows IH]; intros seen Hnd Hs; [done|].
  rewrite fmap_cons in Hnd. apply NoDup_cons in Hnd as [Hc Hnd].
  simpl. rewrite decide_False by (apply Hs; left). f_equal.
  apply IH; [done|]. intros c' Hc' Hx.
  apply elem_of_cons in Hx as [E|Hx].
  - apply Hc. rewrite <- E. by apply list_elem_of_fmap_2.
  - apply (Hs c'); [by right | done].
Qed.

Lemma length_drop_duplicates_from (rows : list GetData.candle) (seen : list Z) :
  (length (GetData.drop_duplicates_from seen rows) <= length rows)%nat.
Proof.
  revert seen. induction rows as [|c rows IH]; intros seen; [done|].
  simpl. destruct (decide _).
  - specialize (IH seen). lia.
  - specialize (IH (GetData.timestamp c :: seen)). simpl. lia.
Qed.

Lemma sort_values_sorted (rows : list GetData.candle) :
  StronglySorted GetData.ts_le (GetData.sort_values rows).
Proof.
  unfold GetData.sort_values. apply StronglySorted_merge_sort.
  - intros a b c. unfold GetData.ts_le. lia.
  - intros a b. unfold GetData.ts_le. lia.
Qed.

Lemma sort_values_Permutation (rows : list GetData.candle) :
  GetData.sort_values rows ≡ₚ rows.
Proof. apply merge_sort_Permutation. Qed.

(** Sorted rows with different timestamps are strictly sorted. *)
Lemma sorted_strict (rows : list GetData.candle) :
  StronglySorted GetData.ts_le rows ->
  NoDup (GetData.timestamp <$> rows) ->
  StronglySorted Z.lt (GetData.timestamp <$> rows).
Proof.
  induction 1 as [|c rows Hs IH Hc]; intros Hnd; [constructor|].
  rewrite fmap_cons in *. apply NoDup_cons in Hnd as [Hn Hnd].
  constructor; [by apply IH|].
  apply Forall_forall. intros t Ht.
  apply list_elem_of_fmap in Ht as (c' & -> & Hc').
  rewrite Forall_forall in Hc. specialize (Hc c' Hc').
  unfold GetData.ts_le in Hc.
  assert (GetData.timestamp c <> GetData.timestamp c'); [|lia].
  intros E. apply Hn. rewrite E. by apply list_elem_of_fmap_2.
Qed.

Lemma sort_dedup_strict (rows : list GetData.candle) :
  StronglySorted Z.lt
    (GetData.timestamp
       <$> GetData.sort_values (GetData.drop_duplicates rows)).
Proof.
  apply sorted_strict; [apply sort_values_sorted|].
  rewrite sort_values_Permutation.
  apply (drop_duplicates_from_spec rows []).
Qed.

Lemma StronglySorted_drop {A} (R : relation A) (n : nat) (l : list A) :
  StronglySorted R l -> StronglySorted R (drop n l).
Proof.
  intros H. rewrite <- (take_drop n l) in H.
  by apply StronglySorted_app_1_r in H.
Qed.

Lemma last_default_irrelevant {A} (l : list A) (a c d : A) :
  List.last (a :: l) c = List.last (a :: l) d.
Proof.
  revert a. induction l as [|b l IH]; intros a; [done|].
  change (List.last (a :: b :: l) c) with (List.last (b :: l) c).
  change (List.last (a :: b :: l) d) with (List.last (b :: l) d).
  apply IH.
Qed.

Lemma last_cons_default {A} (l : list A) (a c : A) :
  List.last (a :: l) c = List.last l a.
Proof.
  destruct l as [|b l]; [done|].
  change (List.last (a :: b :: l) c) with (List.last (b :: l) c).
  apply last_default_irrelevant.
Qed.

Lemma lookup_last_default {A} (c : A) (rest : list A) :
  (c :: rest) !! length rest = Some (List.last rest c).
Proof.
  revert c. induction rest as [|d rest IH]; intros c; [done|].
  rewrite last_cons_default. apply (IH d).
Qed.

Lemma fetch_latest_data_nonempty (c : GetData.candle)
    (rest : list GetData.candle) (latest : GetData.candle) :
  (1 <= length (GetData.sort_values
                  (GetData.drop_duplicates ((c :: rest) ++ [latest]))))%nat /\
  (length (GetData.sort_values
             (GetData.drop_duplicates ((c :: rest) ++ [latest])))
   <= length rest + 2)%nat.
Proof.
  rewrite (Permutation_length (sort_values_Permutation _)).
  unfold GetData.drop_duplicates. split.
  - destruct (drop_duplicates_from_spec ((c :: rest) ++ [latest]) [])
      as (_ & _ & Hcov).
    specialize (Hcov c). rewrite elem_of_nil in Hcov.
    destruct (GetData.drop_duplicates_from [] ((c :: rest) ++ [latest]));
      [|simpl; lia].
    exfalso. assert (GetData.timestamp c ∈ GetData.timestamp <$> []) as H.
    { apply Hcov; [left | tauto]. }
    by apply elem_of_nil in H.
  - pose proof (length_drop_duplicates_from ((c :: rest) ++ [latest]) []) as H.
    rewrite length_app in H. simpl in *. lia.
Qed.

(** X21: after an update the window is never empty and never longer than
    1440 rows, unless it was longer before and only its last row was
    replaced. *)
Theorem X21_window_is_bounded (df : option (list GetData.candle))
    (latest : GetData.candle) :
  GetData.fetch_latest_data df latest <> [] /\
  (length (GetData.fetch_latest_data df latest)
   <= Nat.max 1440 (length (default [] df)))%nat.
Proof.
  destruct df as [[|c rest]|]; simpl; [split; [done | lia] | | split; [done | lia]].
  destruct (decide (GetData.timestamp (List.last rest c)
                    = GetData.timestamp latest)) as [E|E].
  - split.
    + intros H. apply (f_equal length) in H.
      rewrite length_insert in H. done.
    + rewrite length_insert. simpl. lia.
  - destruct (fetch_latest_data_nonempty c rest latest) as [H1 H2].
    simpl in H1, H2.
    set (merged := GetData.sort_values
                     (GetData.drop_duplicates (c :: rest ++ [latest]))) in *.
    destruct (1440 <? length merged)%nat eqn:El.
    + apply Nat.ltb_lt in El. split.
      * intros H. apply (f_equal length) in H. rewrite length_drop in H.
        simpl in H. lia.
      * rewrite length_drop. lia.
    + apply Nat.ltb_ge in El. split.
      * intros H. rewrite H in H1. simpl in H1. lia.
      * lia.
Qed.

(** X22: on a window sorted by strictly increasing timestamps (as
    [fetch_1m_data] leaves it) an update returns a window sorted by strictly
    increasing timestamps; no timestamp occurs twice. *)
Theorem X22_window_stays_sorted (df : option (list GetData.candle))
    (latest : GetData.candle) :
  StronglySorted Z.lt (GetData.timestamp <$> default [] df) ->
  StronglySorted Z.lt
    (GetData.timestamp <$> GetData.fetch_latest_data df latest).
Proof.
  intros Hs.
  destruct df as [[|c rest]|]; simpl;
    [repeat constructor | | repeat constructor].
  destruct (decide (GetData.timestamp (List.last rest c)
                    = GetData.timestamp latest)) as [E|E].
  - rewrite list_fmap_insert, list_insert_id; [done|].
    rewrite list_lookup_fmap. simpl. rewrite Nat.sub_0_r.
    rewrite lookup_last_default. simpl. by f_equal.
  - pose proof (sort_dedup_strict (c :: rest ++ [latest])) as H.
    destruct (1440 <? _)%nat; [|done].
    rewrite fmap_drop. by apply StronglySorted_drop.
Qed.

Lemma two_candles_sorted :
  StronglySorted Z.lt (GetData.timestamp <$> two_candles).
Proof. repeat constructor. Qed.

Lemma X22_window_witness :
  StronglySorted Z.lt (GetData.timestamp <$> default [] (Some two_candles)) /\
  GetData.timestamp
    <$> GetData.fetch_latest_data (Some two_candles) (candle_at 30000 99)
  = [0; 30000; 60000]%Z /\
  StronglySorted Z.lt
    (GetData.timestamp
       <$> GetData.fetch_latest_data (Some two_candles) (candle_at 30000 99)).
Proof.
  split; [exact two_candles_sorted|]. split; [vm_compute; reflexivity|].
  apply (X22_window_stays_sorted (Some two_candles) (candle_at 30000 99)
           two_candles_sorted).
Defined.

Lemma StronglySorted_lt_NoDup (l : list Z) : StronglySorted Z.lt l -> NoDup l.
Proof.
  induction 1 as [|a l Hs IH Ha]; [constructor|].
  apply NoDup_cons. split; [|done].
  intros Hin. rewrite Forall_forall in Ha. specialize (Ha a Hin). lia.
Qed.

Lemma NoDup_fmap_elem_inj {A B} (f : A -> B) (l : list A) (a b : A) :
  NoDup (f <$> l) -> a ∈ l -> b ∈ l -> f a = f b -> a = b.
Proof.
  induction l as [|c l IH]; intros Hnd Ha Hb E; [by apply elem_of_nil in Ha|].
  rewrite fmap_cons in Hnd. apply NoDup_cons in Hnd as [Hc Hnd].
  apply elem_of_cons in Ha as [->|Ha], Hb as [->|Hb].
  - done.
  - exfalso. apply Hc. rewrite E. by apply list_elem_of_fmap_2.
  - exfalso. apply Hc. rewrite <- E. by apply list_elem_of_fmap_2.
  - by apply IH.
Qed.

Lemma strict_sorted_le (rows : list GetData.candle) :
  StronglySorted Z.lt (GetData.timestamp <$> rows) ->
  StronglySorted GetData.ts_le rows.
Proof.
  induction rows as [|c rows IH]; intros H; [constructor|].
  rewrite fmap_cons in H. apply StronglySorted_cons in H as [Hc Hs].
  constructor; [by apply IH|].
  apply Forall_forall. intros c' Hc'. rewrite Forall_forall in Hc.
  unfold GetData.ts_le.
  assert (GetData.timestamp c < GetData.timestamp c')%Z; [|lia].
  apply Hc. by apply list_elem_of_fmap_2.
Qed.

(** Sorting rows that are strictly sorted already changes nothing. *)
Lemma sort_values_sorted_id (rows : list GetData.candle) :
  StronglySorted Z.lt (GetData.timestamp <$> rows) ->
  GetData.sort_values rows = rows.
Proof.
  intros Hs.
  apply (StronglySorted_unique_strong GetData.ts_le).
  - intros a b Ha Hb Hab Hba. unfold GetData.ts_le in *.
    rewrite sort_values_Permutation in Ha.
    apply (NoDup_fmap_elem_inj GetData.timestamp rows);
      [by apply StronglySorted_lt_NoDup | done | done | lia].
  - apply sort_values_sorted.
  - by apply strict_sorted_le.
  - apply sort_values_Permutation.
Qed.

Lemma sorted_below_last (c : GetData.candle) (rest : list GetData.candle)
    (a : GetData.candle) :
  StronglySorted Z.lt (GetData.timestamp <$> c :: rest) ->
  a ∈ c :: rest ->
  (GetData.timestamp a <= GetData.timestamp (List.last rest c))%Z.
Proof.
  revert c a. induction rest as [|d rest IH]; intros c a Hs Ha.
  - apply elem_of_cons in Ha as [->|Ha]; [simpl; lia | by apply elem_of_nil in Ha].
  - rewrite last_cons_default. rewrite fmap_cons in Hs.
    apply StronglySorted_cons in Hs as [Hc Hs].
    apply elem_of_cons in Ha as [->|Ha]; [|by apply IH].
    rewrite Forall_forall in Hc.
    assert (GetData.timestamp c < GetData.timestamp d)%Z
      by (apply Hc; rewrite fmap_cons; left).
    assert (GetData.timestamp d <= GetData.timestamp (List.last rest d))%Z
      by (apply IH; [done | left]).
    lia.
Qed.

(** X23: on a window sorted by strictly increasing timestamps, a candle
    newer than the last row is appended at the end, and the oldest rows are
    dropped so that at most 1440 rows remain. *)
Theorem X23_a_newer_candle_is_appended (c : GetData.candle)
    (rest : list GetData.candle) (latest : GetData.candle) :
  StronglySorted Z.lt (GetData.timestamp <$> c :: rest) ->
  (GetData.timestamp (List.last rest c) < GetData.timestamp latest)%Z ->
  GetData.fetch_latest_data (Some (c :: rest)) latest
  = drop (length (c :: rest) + 1 - 1440) ((c :: rest) ++ [latest]).
Proof.
  intros Hs Hnew.
  assert (StronglySorted Z.lt
            (GetData.timestamp <$> (c :: rest) ++ [latest])) as Hs'.
  { rewrite fmap_app. apply StronglySorted_app_2; [|done|repeat constructor].
    intros t1 t2 Ht1 Ht2. apply list_elem_of_fmap in Ht1 as (a & -> & Ha).
    apply list_elem_of_singleton in Ht2 as ->.
    pose proof (sorted_below_last c rest a Hs Ha). lia. }
  unfold GetData.fetch_latest_data.
  rewrite decide_False by lia.
  unfold GetData.drop_duplicates.
  rewrite drop_duplicates_from_id;
    [| by apply StronglySorted_lt_NoDup | intros ? _ ?%elem_of_nil; done].
  rewrite sort_values_sorted_id by done.
  assert (length ((c :: rest) ++ [latest]) = (length (c :: rest) + 1)%nat)
    as -> by (rewrite length_app; simpl; lia).
  destruct (1440 <? length (c :: rest) + 1)%nat eqn:El; [done|].
  apply Nat.ltb_ge in El.
  by replace (length (c :: rest) + 1 - 1440)%nat with 0%nat by lia.
Qed.

Lemma X23_newer_candle_witness :
  StronglySorted Z.lt (GetData.timestamp <$> two_candles) /\
  GetData.fetch_latest_data (Some two_candles) (candle_at 120000 102)
  = two_candles ++ [candle_at 120000 102].
Proof.
  split; [exact two_candles_sorted|].
  apply (X23_a_newer_candle_is_appended (candle_at 0 100)
           [candle_at 60000 101] (candle_at 120000 102) two_candles_sorted).
  reflexivity.
Defined.

(** A row whose timestamp is there already is dropped when it comes last. *)
Lemma drop_duplicates_from_app_dup (rows : list GetData.candle)
    (x : GetData.candle) :
  forall seen,
    GetData.timestamp x ∈ seen
    \/ GetData.timestamp x ∈ (GetData.timestamp <$> rows) ->
    GetData.drop_duplicates_from seen (rows ++ [x])
    = GetData.drop_duplicates_from seen rows.
Proof.
  induction rows as [|c rows IH]; intros seen Hx.
  - simpl. destruct Hx as [Hx|Hx]; [|by apply elem_of_nil in Hx].
    by rewrite decide_True.
  - simpl. destruct (decide (GetData.timestamp c ∈ seen)) as [Hin|Hout].
    + apply IH. destruct Hx as [Hx|Hx]; [by left|].
      rewrite fmap_cons in Hx. apply elem_of_cons in Hx as [->|Hx]; auto.
    + f_equal. apply IH. destruct Hx as [Hx|Hx]; [left; by right|].
      rewrite fmap_cons in Hx. apply elem_of_cons in Hx as [->|Hx];
        [left; left | by right].
Qed.

(** X24: on a window sorted by strictly increasing timestamps, a candle
    whose timestamp is the timestamp of the last row replaces that row and
    nothing else changes; a candle whose timestamp is the timestamp of an
    older row is discarded: the stored row is kept. *)
Theorem X24_a_known_timestamp_adds_no_row (c : GetData.candle)
    (rest : list GetData.candle) (latest : GetData.candle) :
  StronglySorted Z.lt (GetData.timestamp <$> c :: rest) ->
  GetData.timestamp latest ∈ (GetData.timestamp <$> c :: rest) ->
  GetData.fetch_latest_data (Some (c :: rest)) latest
  = if decide (GetData.timestamp (List.last rest c) = GetData.timestamp latest)
    then take (length rest) (c :: rest) ++ [latest]
    else drop (length (c :: rest) - 1440) (c :: rest).
Proof.
  intros Hs Hin. unfold GetData.fetch_latest_data.
  destruct (decide (GetData.timestamp (List.last rest c)
                    = GetData.timestamp latest)) as [E|E].
  - replace (length (c :: rest) - 1)%nat with (length rest)
      by (simpl; lia).
    rewrite insert_take_drop by (simpl; lia).
    by rewrite (drop_ge (c :: rest)) by (simpl; lia).
  - unfold GetData.drop_duplicates.
    rewrite drop_duplicates_from_app_dup by (by right).
    rewrite drop_duplicates_from_id;
      [| by apply StronglySorted_lt_NoDup | intros ? _ ?%elem_of_nil; done].
    rewrite sort_values_sorted_id by done.
    destruct (1440 <? length (c :: rest))%nat eqn:El; [done|].
    apply Nat.ltb_ge in El.
    by replace (length (c :: rest) - 1440)%nat with 0%nat by lia.
Qed.

Lemma X24_known_timestamp_witness :
  StronglySorted Z.lt (GetData.timestamp <$> two_candles) /\
  GetData.timestamp (candle_at 0 55) ∈ (GetData.timestamp <$> two_candles) /\
  GetData.fetch_latest_data (Some two_candles) (candle_at 0 55) = two_candles /\
  GetData.fetch_latest_data (Some two_candles) (candle_at 60000 55)
  = [candle_at 0 100; candle_at 60000 55].
Proof.
  assert (GetData.timestamp (candle_at 0 55)
          ∈ (GetData.timestamp <$> two_candles)) as Hin by left.
  split; [exact two_candles_sorted|]. split; [exact Hin|].
  split; [|vm_compute; reflexivity].
  apply (X24_a_known_timestamp_adds_no_row (candle_at 0 100)
           [candle_at 60000 101] (candle_at 0 55) two_candles_sorted Hin).
Defined.

(** X25: the frame that [fetch_1m_data] builds from the rows it received is
    sorted by strictly increasing timestamps; it has exactly the timestamps
    received, and each of its rows is one of the rows received. *)
Theorem X25_clean_frame_is_sorted_and_complete (rows : list GetData.candle) :
  StronglySorted Z.lt (GetData.timestamp <$> GetData.clean_frame rows) /\
  (forall t, t ∈ (GetData.timestamp <$> GetData.clean_frame rows)
             <-> t ∈ (GetData.timestamp <$> rows)) /\
  (forall c, c ∈ GetData.clean_frame rows -> c ∈ rows) /\
  (length (GetData.clean_frame rows) <= length rows)%nat.
Proof.
  unfold GetData.clean_frame.
  destruct (drop_duplicates_from_spec rows []) as (Hnd & Hsub & Hcov).
  split; [apply sort_dedup_strict|]. split; [|split].
  - intros t. rewrite sort_values_Permutation. split.
    + intros Ht. apply list_elem_of_fmap in Ht as (c & -> & Hc).
      apply list_elem_of_fmap_2. by apply Hsub.
    + intros Ht. apply list_elem_of_fmap in Ht as (c & -> & Hc).
      apply Hcov; [done | by intros ?%elem_of_nil].
  - intros c Hc. rewrite sort_values_Permutation in Hc. by apply Hsub.
  - rewrite (Permutation_length (sort_values_Permutation _)).
    apply length_drop_duplicates_from.
Qed.
